(** * Bus-pass backend (server.js): pass identifiers, lookups and bookings

    A shallow embedding of the request handlers of [server.js] and of the
    JavaScript semantics they rely on.  The file holds two copies of the
    server (an ES-module one and a CommonJS one); each is embedded in a
    module of its own, [ESM] and [CJS].

    - JavaScript Numbers are IEEE-754 binary64 values: [spec_float] of the
      Standard Library with [prec = 53] and [emax = 1024]; [+] and [*] are
      [SFadd] and [SFmul] (round to nearest, ties to even).
    - Request bodies are finite maps from property names to JavaScript
      values; reading an absent property yields [undefined].
    - A collection is the list of its documents in insertion order.
    - What the code takes from its host (the BSON [ObjectId] constructor,
      the [qrcode] package, string-to-number conversion, the wording of
      engine errors) is an interface, [Host]; what varies per request
      ([Math.random()], the clock, the id the driver assigns, a failing
      database call) is a record, [Env].
    - A handler is a function from the request and the state of the two
      collection handles to the response and the new state.  The body
      parsers hand every handler an object for [req.body]; a filter
      [{ field: s }] selects the documents whose field is the string [s]
      or an array with [s] among its elements; documents are read back as
      they were written. *)

From Stdlib Require Import ZArith Lia Bool List Ascii String.
From Stdlib Require Import Floats.SpecFloat.
From stdpp Require Import base option list strings gmap.

Local Open Scope Z_scope.

(** ** JavaScript Numbers *)

Module JS.

Definition number := spec_float.

Definition prec : Z := 53.
Definition emax : Z := 1024.

Definition NaN : number := S754_nan.
Definition pos_zero : number := S754_zero false.

(** The Number denoted by an integer literal. *)
Definition lit (z : Z) : number := binary_normalize prec emax z 0 false.

Definition Number_add : number -> number -> number := SFadd prec emax.
Definition Number_mul : number -> number -> number := SFmul prec emax.

(** What [Math.random()] may return: a Number [r] with [0 <= r < 1]. *)
Definition unit_interval (r : number) : bool :=
  valid_binary prec emax r && SFleb pos_zero r && SFltb r (lit 1).

(** [Math.floor]. *)
Definition Math_floor (x : number) : number :=
  match x with
  | S754_finite s m e =>
      if 0 <=? e then x
      else if s
           then binary_normalize prec emax (- ((Zpos m + 2 ^ (- e) - 1) / 2 ^ (- e))) 0 true
           else binary_normalize prec emax (Zpos m / 2 ^ (- e)) 0 false
  | _ => x
  end.

(** Decimal digits of a non-negative integer, most significant first. *)
Definition digit_char (d : Z) : ascii :=
  ascii_of_nat (48 + Z.to_nat d).

Fixpoint decimal_go (fuel : nat) (n : Z) (acc : string) : string :=
  match fuel with
  | O => acc
  | S fuel' =>
      let acc' := String (digit_char (n mod 10)) acc in
      if n <? 10 then acc' else decimal_go fuel' (n / 10) acc'
  end.

Definition decimal (n : Z) : string :=
  decimal_go (S (Z.to_nat (Z.log2 n))) n "".

(** Reading decimal digits back: the value of a string made of digits only. *)
Definition is_digit (c : ascii) : bool :=
  let n := Z.of_nat (nat_of_ascii c) in (48 <=? n) && (n <=? 57).

Fixpoint digits_value (acc : Z) (s : string) : option Z :=
  match s with
  | EmptyString => Some acc
  | String c s' =>
      if is_digit c
      then digits_value (10 * acc + (Z.of_nat (nat_of_ascii c) - 48)) s'
      else None
  end.

Fixpoint strip_prefix (p s : string) : option string :=
  match p, s with
  | EmptyString, _ => Some s
  | String a p', String b s' => if Ascii.eqb a b then strip_prefix p' s' else None
  | String _ _, EmptyString => None
  end.

(** The pass-identifier format: [prefix], a hyphen and exactly 8 decimal
    digits.  [passId_number prefix s] is the number the digits denote when
    [s] has that format, and [None] otherwise. *)
Definition passId_number (prefix s : string) : option Z :=
  match strip_prefix (prefix +:+ "-") s with
  | Some ds => if (String.length ds =? 8)%nat then digits_value 0 ds else None
  | None => None
  end.

(** The integer a finite Number [m * 2^e] denotes, if it is one. *)
Definition integer_value (m : positive) (e : Z) : option Z :=
  if 0 <=? e then Some (Zpos m * 2 ^ e)
  else if Zpos m mod 2 ^ (- e) =? 0 then Some (Zpos m / 2 ^ (- e))
  else None.

(** ** JavaScript values *)

#[local] Set Warnings "-register-all".
Inductive value : Type :=
| VUndefined
| VNull
| VBool (b : bool)
| VNumber (n : number)
| VString (s : string)
| VArray (elements : list value)
| VObject (properties : list (string * value)).

(** An object used as a record of named properties ([req.body]). *)
Abbreviation object := (gmap string value).

(** [o.k]: an absent property reads as [undefined]. *)
Definition prop (o : object) (k : string) : value :=
  default VUndefined (o !! k).

(** ToBoolean. *)
Definition truthy (v : value) : bool :=
  match v with
  | VUndefined | VNull => false
  | VBool b => b
  | VNumber (S754_zero _) | VNumber S754_nan => false
  | VNumber _ => true
  | VString s => negb (bool_decide (s = ""))
  | VArray _ | VObject _ => true
  end.

(** [a || b]. *)
Definition or_else (a b : value) : value := if truthy a then a else b.

(** [v === s] for a string literal [s]. *)
Definition strict_eq_string (v : value) (s : string) : bool :=
  match v with
  | VString t => bool_decide (t = s)
  | _ => false
  end.

(** ** Exceptions

    A computation that may throw: [inl message] is a thrown error with
    that [err.message]. *)

Definition throws (A : Type) : Type := (string + A)%type.

#[global] Instance throws_ret : MRet throws := fun A a => inr a.
#[global] Instance throws_bind : MBind throws := fun A B f m =>
  match m with
  | inl message => inl message
  | inr a => f a
  end.

Definition throw {A} (message : string) : throws A := inl message.

(** [try { body } catch (err) { handler(err.message) }]. *)
Definition try_catch {A} (body : throws A) (handler : string -> A) : A :=
  match body with
  | inr a => a
  | inl message => handler message
  end.

(** ** The host *)

(** A BSON ObjectId, named by its 24 hexadecimal digits. *)
Definition ObjectId := string.

Class Host := {
  (** [new ObjectId(v)]: the id, or the message of the error it throws *)
  ObjectId_new : value -> throws ObjectId;
  (** [await QRCode.toDataURL(text)]: the data URL, or a rejection *)
  QRCode_toDataURL : string -> throws string;
  (** StringToNumber of ECMAScript *)
  StringToNumber : string -> number;
  (** ToString of an array or object (through ToPrimitive) *)
  Object_toString : value -> string;
  (** Number::toString for the Numbers that are not integers below 10^21 *)
  Number_toString_other : number -> string;
  (** message of the TypeError raised by [undefined.name] *)
  TypeError_undefined : string -> string;
}.

(** ToString applied to a Number, as a template literal does. *)
Definition Number_toString `{Host} (x : number) : string :=
  match x with
  | S754_nan => "NaN"
  | S754_zero _ => "0"
  | S754_infinity false => "Infinity"
  | S754_infinity true => "-Infinity"
  | S754_finite s m e =>
      match integer_value m e with
      | Some z =>
          if z <? 10 ^ 21
          then (if s then "-" else "") +:+ decimal z
          else Number_toString_other x
      | None => Number_toString_other x
      end
  end.

(** [Number(v)]: ToNumber. *)
Definition ToNumber `{Host} (v : value) : number :=
  match v with
  | VUndefined => NaN
  | VNull => pos_zero
  | VBool true => lit 1
  | VBool false => pos_zero
  | VNumber n => n
  | VString s => StringToNumber s
  | VArray _ | VObject _ => StringToNumber (Object_toString v)
  end.

(** [o.name] where [o] may still be [undefined]. *)
Definition member `{Host} {A} (o : option A) (name : string) : throws A :=
  match o with
  | Some a => mret a
  | None => throw (TypeError_undefined name)
  end.

(** What varies from one request to the next. *)
Record Env := {
  Math_random : number;          (* the value of [Math.random()] *)
  Date_now : Z;                  (* [new Date()], in milliseconds *)
  insertedId : ObjectId;         (* the [_id] the driver gives an inserted document *)
  mongoFault : option string;    (* a database call fails with this message *)
}.

End JS.

Import JS.

(** ** The record store *)

Module Store.

Record stored (D : Type) := Stored { _id : ObjectId; fields : D }.
Arguments Stored {D} _ _.
Arguments _id {D} _.
Arguments fields {D} _.

(** A collection: its documents, in insertion order and as they were
    written. *)
Definition collection (D : Type) : Type := list (stored D).

(** [await c.insertOne(doc)]: the driver gives the document its [_id]. *)
Definition insertOne {D} (env : Env) (c : collection D) (doc : D)
  : throws (collection D * stored D) :=
  match mongoFault env with
  | Some message => throw message
  | None => let d := Stored (insertedId env) doc in mret (c ++ [d], d)
  end.

(** [await c.findOne(filter)]: the first document the filter accepts,
    [None] for JavaScript's [null]. *)
Definition findOne {D} (env : Env) (c : collection D) (filter : stored D -> bool)
  : throws (option (stored D)) :=
  match mongoFault env with
  | Some message => throw message
  | None => mret (snd <$> list_find (fun d => filter d = true) c)
  end.

(** The filter [{ field: s }] for a string [s], as MongoDB matches it: the
    stored value is that string, or it is an array with that string among
    its elements.  Elements are compared as they stand: an array nested in
    the array is not searched. *)
Definition field_is (v : value) (s : string) : bool :=
  match v with
  | VArray elements => existsb (fun e => strict_eq_string e s) elements
  | _ => strict_eq_string v s
  end.

End Store.
Import Store.

(** ** Documents *)

Module Applicant.
Record age_t := { years : value; months : value; days : value }.
Record t := {
  passId : string;
  qrCode : string;
  name : value;
  fatherName : value;
  dob : value;
  gender : value;
  age : age_t;
  aadhar : value;
  phone : value;
  whatsapp : value;
  number : value;
  email : value;
  photo : string;
  aadharFile : string;
  address : value;
  district : value;
  mandal : value;
  village : value;
  pincode : value;
  city : value;
  passType : value;
  paymentMode : string;
  deliveryMode : string;
  counter : value;
  createdAt : Z;
}.
End Applicant.

Module Ticket.
Record t := {
  applicantId : ObjectId;
  source : value;
  destination : value;
  paymentType : value;
  amount : JS.number;
  bookedAt : Z;
}.
End Ticket.

(** ** Requests, responses and the server state *)

(** A file stored by multer. *)
Record File := { originalname : string; filename : string }.

Record ApplyRequest := {
  apply_body : object;                             (* [req.body] *)
  apply_files : option (gmap string (list File));  (* [req.files] *)
}.

(** The object handed to [res.json]. *)
Inductive payload : Type :=
| JError (error : string)                (* { error } *)
| JFailure (error : string)              (* { success: false, error } *)
| JUnsuccessful                          (* { success: false } *)
| JMsg (msg : string)                    (* { success: false, msg } *)
| JApplied (message : string) (id : ObjectId) (passId qrCode : string)
                                         (* { success: true, message, id, passId, qrCode } *)
| JVerified (id : ObjectId)              (* { success: true, id } *)
| JApplicant (applicant : stored Applicant.t)   (* { success: true, applicant } *)
| JRecord (applicant : stored Applicant.t)      (* the record itself *)
| JTicket (ticket : stored Ticket.t).    (* { success: true, ticket } *)

Record response := { status : Z; json : payload }.

(** [res.json(b)] and [res.status(code).json(b)]. *)
Definition res_json (b : payload) : response := {| status := 200; json := b |}.
Definition res_status (code : Z) (b : payload) : response := {| status := code; json := b |}.

(** [let applications, tickets;], both set by [connectDB]. *)
Record State := {
  applications : option (collection Applicant.t);
  tickets : option (collection Ticket.t);
}.

(** [connectDB] on a database holding the given collections. *)
Definition connectDB (apps : collection Applicant.t) (tks : collection Ticket.t) : State :=
  {| applications := Some apps; tickets := Some tks |}.

(** [req.files?.field ? `/uploads/${req.files.field[0].filename}` : ""] *)
Definition upload_path `{Host} (files : option (gmap string (list File))) (field : string)
  : throws string :=
  match files ≫= (fun fs => fs !! field) with
  | None => mret ""
  | Some [] => throw (TypeError_undefined "filename")
  | Some (f :: _) => mret ("/uploads/" +:+ filename f)
  end.

(** ** The ES-module server (first copy in [server.js]) *)

Module ESM.
Section Routes.
Context `{Host}.

(** Generate 8-digit unique pass ID *)
Definition generateUniquePassId (random : number) : string :=
  let randomNum :=
    Math_floor (Number_add (lit 10000000) (Number_mul random (lit 90000000))) in
  "TSRTC-" +:+ Number_toString randomNum.

(** [POST /apply] *)
Definition post_apply (env : Env) (st : State) (req : ApplyRequest) : response * State :=
  let body := apply_body req in
  try_catch
    (match applications st with
     | None => mret (res_status 500 (JError "DB not connected yet"), st)
     | Some apps =>
         let passId := generateUniquePassId (Math_random env) in
         qrDataUrl ← QRCode_toDataURL passId;
         let phoneNumber :=
           or_else (or_else (prop body "phone") (prop body "whatsapp")) (prop body "number") in
         photo ← upload_path (apply_files req) "photo";
         aadharFile ← upload_path (apply_files req) "aadharFile";
         let doc := {|
           Applicant.passId := passId;
           Applicant.qrCode := qrDataUrl;
           Applicant.name := prop body "name";
           Applicant.fatherName := prop body "fatherName";
           Applicant.dob := prop body "dob";
           Applicant.gender := prop body "gender";
           Applicant.age := {|
             Applicant.years := prop body "ageYears";
             Applicant.months := prop body "ageMonths";
             Applicant.days := prop body "ageDays" |};
           Applicant.aadhar := prop body "aadhar";
           Applicant.phone := phoneNumber;
           Applicant.whatsapp := or_else (prop body "whatsapp") phoneNumber;
           Applicant.number := or_else (prop body "number") phoneNumber;
           Applicant.email := prop body "email";
           Applicant.photo := photo;
           Applicant.aadharFile := aadharFile;
           Applicant.address := prop body "address";
           Applicant.district := prop body "district";
           Applicant.mandal := prop body "mandal";
           Applicant.village := prop body "village";
           Applicant.pincode := prop body "pincode";
           Applicant.city := prop body "city";
           Applicant.passType := prop body "passType";
           Applicant.paymentMode := "FREE SCHEME";
           Applicant.deliveryMode := "Bus Pass Counter";
           Applicant.counter := prop body "counter";
           Applicant.createdAt := Date_now env |} in
         '(apps', result) ← insertOne env apps doc;
         mret (res_json (JApplied "✅ Application stored in MongoDB" (_id result) passId qrDataUrl),
               {| applications := Some apps'; tickets := tickets st |})
     end)
    (fun _ => (res_status 500 (JFailure "Failed to save application"), st)).

(** [GET /verify/:phone] *)
Definition get_verify (env : Env) (st : State) (phone : string) : response * State :=
  try_catch
    (match applications st with
     | None => mret (res_status 500 (JFailure "DB not connected"), st)
     | Some apps =>
         applicant ← findOne env apps (fun d =>
           field_is (Applicant.phone (fields d)) phone
           || field_is (Applicant.whatsapp (fields d)) phone
           || field_is (Applicant.number (fields d)) phone);
         mret (res_json (match applicant with
                         | Some a => JVerified (_id a)
                         | None => JUnsuccessful
                         end), st)
     end)
    (fun _ => (res_status 500 (JFailure "Server error"), st)).

(** [GET /applicant/:id] *)
Definition get_applicant (env : Env) (st : State) (id : string) : response * State :=
  try_catch
    (match applications st with
     | None => mret (res_status 500 (JFailure "DB not connected"), st)
     | Some apps =>
         oid ← ObjectId_new (VString id);
         applicant ← findOne env apps (fun d => bool_decide (_id d = oid));
         mret (res_json (match applicant with
                         | Some a => JApplicant a
                         | None => JUnsuccessful
                         end), st)
     end)
    (fun _ => (res_status 500 (JFailure "Server error"), st)).

(** [GET /getApplicant/:passId]: the [try] block, then the route. *)
Definition get_getApplicant_try (env : Env) (st : State) (passId : string)
  : throws (response * State) :=
  apps ← member (applications st) "findOne";
  applicant ← findOne env apps (fun d => bool_decide (Applicant.passId (fields d) = passId));
  mret (res_status (match applicant with Some _ => 200 | None => 404 end)
          (match applicant with
           | Some a => JRecord a
           | None => JMsg "Not found"
           end), st).

Definition get_getApplicant (env : Env) (st : State) (passId : string) : response * State :=
  try_catch (get_getApplicant_try env st passId)
    (fun message => (res_status 500 (JFailure message), st)).

(** [POST /bookTicket] *)
Definition post_bookTicket (env : Env) (st : State) (body : object) : response * State :=
  try_catch
    (let applicantId := prop body "applicantId" in
     let source := prop body "source" in
     let destination := prop body "destination" in
     let paymentType := prop body "paymentType" in
     let amount := prop body "amount" in
     if negb (truthy applicantId) || negb (truthy source)
        || negb (truthy destination) || negb (truthy paymentType)
     then mret (res_json (JMsg "Missing fields"), st)
     else
       oid ← ObjectId_new applicantId;
       let ticketDoc := {|
         Ticket.applicantId := oid;
         Ticket.source := source;
         Ticket.destination := destination;
         Ticket.paymentType := paymentType;
         Ticket.amount := if strict_eq_string paymentType "PAID" then ToNumber amount else lit 0;
         Ticket.bookedAt := Date_now env |} in
       tks ← member (tickets st) "insertOne";
       '(tks', result) ← insertOne env tks ticketDoc;
       mret (res_json (JTicket result),
             {| applications := applications st; tickets := Some tks' |}))
    (fun message => (res_status 500 (JFailure message), st)).

End Routes.
End ESM.

(** ** The CommonJS server (second copy in [server.js]) *)

Module CJS.
Section Routes.
Context `{Host}.

(** Function to generate 8-digit unique ID *)
Definition generateUniquePassId (random : number) : string :=
  let randomNum :=
    Math_floor (Number_add (lit 10000000) (Number_mul random (lit 90000000))) in
  "TSRTC-" +:+ Number_toString randomNum.

(** 1. Save Application (POST) *)
Definition post_apply (env : Env) (st : State) (req : ApplyRequest) : response * State :=
  let body := apply_body req in
  try_catch
    (if applications st is Some apps then
       let passId := generateUniquePassId (Math_random env) in
       qrDataUrl ← QRCode_toDataURL passId;
       let phoneNumber :=
         or_else (or_else (prop body "phone") (prop body "whatsapp")) (prop body "number") in
       photo ← upload_path (apply_files req) "photo";
       aadharFile ← upload_path (apply_files req) "aadharFile";
       let doc := {|
         Applicant.passId := passId;
         Applicant.qrCode := qrDataUrl;
         Applicant.name := prop body "name";
         Applicant.fatherName := prop body "fatherName";
         Applicant.dob := prop body "dob";
         Applicant.gender := prop body "gender";
         Applicant.age := {|
           Applicant.years := prop body "ageYears";
           Applicant.months := prop body "ageMonths";
           Applicant.days := prop body "ageDays" |};
         Applicant.aadhar := prop body "aadhar";
         Applicant.phone := phoneNumber;
         Applicant.whatsapp := or_else (prop body "whatsapp") phoneNumber;
         Applicant.number := or_else (prop body "number") phoneNumber;
         Applicant.email := prop body "email";
         Applicant.photo := photo;
         Applicant.aadharFile := aadharFile;
         Applicant.address := prop body "address";
         Applicant.district := prop body "district";
         Applicant.mandal := prop body "mandal";
         Applicant.village := prop body "village";
         Applicant.pincode := prop body "pincode";
         Applicant.city := prop body "city";
         Applicant.passType := prop body "passType";
         Applicant.paymentMode := "FREE SCHEME";
         Applicant.deliveryMode := "Bus Pass Counter";
         Applicant.counter := prop body "counter";
         Applicant.createdAt := Date_now env |} in
       '(apps', result) ← insertOne env apps doc;
       mret (res_json (JApplied "✅ Application stored in MongoDB" (_id result) passId qrDataUrl),
             {| applications := Some apps'; tickets := tickets st |})
     else mret (res_status 500 (JError "DB not connected yet"), st))
    (fun _ => (res_status 500 (JFailure "Failed to save application"), st)).

(** 2. Verify by Phone Number (GET) *)
Definition get_verify (env : Env) (st : State) (phone : string) : response * State :=
  try_catch
    (if applications st is Some apps then
       applicant ← findOne env apps (fun d =>
         field_is (Applicant.phone (fields d)) phone
         || field_is (Applicant.whatsapp (fields d)) phone
         || field_is (Applicant.number (fields d)) phone);
       if applicant is Some a
       then mret (res_json (JVerified (_id a)), st)
       else mret (res_json JUnsuccessful, st)
     else mret (res_status 500 (JFailure "DB not connected"), st))
    (fun _ => (res_status 500 (JFailure "Server error"), st)).

(** 3. Fetch Applicant by Mongo _id (GET) *)
Definition get_applicant (env : Env) (st : State) (id : string) : response * State :=
  try_catch
    (if applications st is Some apps then
       oid ← ObjectId_new (VString id);
       applicant ← findOne env apps (fun d => bool_decide (_id d = oid));
       if applicant is Some a
       then mret (res_json (JApplicant a), st)
       else mret (res_json JUnsuccessful, st)
     else mret (res_status 500 (JFailure "DB not connected"), st))
    (fun _ => (res_status 500 (JFailure "Server error"), st)).

(** 4. Fetch Applicant by Pass ID (QR Scan) (GET): the [try] block, then
    the route. *)
Definition get_getApplicant_try (env : Env) (st : State) (passId : string)
  : throws (response * State) :=
  apps ← member (applications st) "findOne";
  applicant ← findOne env apps (fun d => bool_decide (Applicant.passId (fields d) = passId));
  if applicant is Some a
  then mret (res_json (JRecord a), st)
  else mret (res_status 404 (JMsg "Not found"), st).

Definition get_getApplicant (env : Env) (st : State) (passId : string) : response * State :=
  try_catch (get_getApplicant_try env st passId)
    (fun message => (res_status 500 (JFailure message), st)).

(** 5. Book Ticket (POST) *)
Definition post_bookTicket (env : Env) (st : State) (body : object) : response * State :=
  try_catch
    (let applicantId := prop body "applicantId" in
     let source := prop body "source" in
     let destination := prop body "destination" in
     let paymentType := prop body "paymentType" in
     let amount := prop body "amount" in
     if negb (truthy applicantId) || negb (truthy source)
        || negb (truthy destination) || negb (truthy paymentType)
     then mret (res_json (JMsg "Missing fields"), st)
     else
       oid ← ObjectId_new applicantId;
       let ticketDoc := {|
         Ticket.applicantId := oid;
         Ticket.source := source;
         Ticket.destination := destination;
         Ticket.paymentType := paymentType;
         Ticket.amount := if strict_eq_string paymentType "PAID" then ToNumber amount else lit 0;
         Ticket.bookedAt := Date_now env |} in
       tks ← member (tickets st) "insertOne";
       '(tks', result) ← insertOne env tks ticketDoc;
       mret (res_json (JTicket result),
             {| applications := applications st; tickets := Some tks' |}))
    (fun message => (res_status 500 (JFailure message), st)).

End Routes.
End CJS.

(** ** A concrete host, for running the handlers on sample requests *)

Module Sample.

Definition is_hex (c : ascii) : bool :=
  let n := Z.of_nat (nat_of_ascii c) in
  ((48 <=? n) && (n <=? 57)) || ((97 <=? n) && (n <=? 102)) || ((65 <=? n) && (n <=? 70)).

(** A host whose [ObjectId] constructor takes exactly the strings of 24
    hexadecimal digits, and whose string-to-number conversion reads the
    empty string and unsigned runs of decimal digits and answers [NaN] to
    anything else.  Its QR encoder is a stand-in that tags the text.  The
    samples give it no array, object or fractional Number to print; it
    answers those with fixed strings. *)
Definition host : Host := {|
  ObjectId_new v :=
    match v with
    | VString s =>
        if (String.length s =? 24)%nat && forallb is_hex (list_ascii_of_string s)
        then mret s
        else throw "input must be a 24 character hex string, 12 byte Uint8Array, or an integer"
    | _ => throw "input must be a 24 character hex string, 12 byte Uint8Array, or an integer"
    end;
  QRCode_toDataURL text := mret ("data:image/png;base64," +:+ text);
  StringToNumber s :=
    match digits_value 0 s with
    | Some z => lit z
    | None => NaN
    end;
  Object_toString _ := "[object Object]";
  Number_toString_other _ := "NaN";
  TypeError_undefined name :=
    "Cannot read properties of undefined (reading '" +:+ name +:+ "')";
|}.

Definition env : Env := {|
  Math_random := S754_finite false 4503599627370496 (-53);   (* 0.5 *)
  Date_now := 1700000000000;
  insertedId := "65529d7e0000000000000001";
  mongoFault := None;
|}.

(** The same request context with the database call failing. *)
Definition env_fault : Env := {|
  Math_random := Math_random env;
  Date_now := Date_now env;
  insertedId := insertedId env;
  mongoFault := Some "connection closed";
|}.

(** An empty, connected database. *)
Definition empty : State := connectDB [] [].

(** Application forms. *)
Definition form (fields : object) : ApplyRequest :=
  {| apply_body := fields; apply_files := None |}.
Definition only_whatsapp : ApplyRequest := form {[ "whatsapp" := VString "9999999999" ]}.
Definition phone_111 : ApplyRequest := form {[ "phone" := VString "111" ]}.
Definition only_number_222 : ApplyRequest := form {[ "number" := VString "222" ]}.
(** A form that repeats the [phone] field: multer hands the values over as
    an array. *)
Definition two_phones : ApplyRequest :=
  form {[ "phone" := VArray [VString "111"; VString "222"] ]}.

(** The applications collection after one submission. *)
Definition after_apply (req : ApplyRequest) : collection Applicant.t :=
  default [] (applications (snd (ESM.post_apply (H := host) env empty req))).

(** Booking requests. *)
Definition booking (paymentType : string) (amount : value) : object :=
  {[ "applicantId" := VString "65529d7e0000000000000001";
     "source" := VString "Hyderabad";
     "destination" := VString "Warangal";
     "paymentType" := VString paymentType;
     "amount" := amount ]}.
Definition booking_without_destination : object :=
  {[ "applicantId" := VString "65529d7e0000000000000001";
     "source" := VString "Hyderabad";
     "paymentType" := VString "FREE";
     "amount" := VString "500" ]}.

(** The amount of the ticket a booking leaves last in the store. *)
Definition stored_amount (out : response * State) : option number :=
  t ← tickets (snd out) ≫= last; Some (Ticket.amount (fields t)).

End Sample.

(** ** Definitions used to state and prove the properties *)

Module Exact.

(** Non-negative Numbers are read as integers in units of [2^-scale]; the
    unit is fine enough for every product [Math.random() * 90000000]. *)
Definition scale : Z := 1100.

(** [denotes x v]: [x] is a non-negative finite Number of value [v * 2^-scale]. *)
Definition denotes (x : number) (v : Z) : Prop :=
  match x with
  | S754_zero false => v = 0
  | S754_finite false m e => - 1074 <= e /\ v = Zpos m * 2 ^ (e + scale)
  | _ => False
  end.

(** The state of [shr] after [n] one-bit shifts of the mantissa [M]: the
    quotient, and a round bit that is set only from the midpoint up. *)
Definition shr_inv (M n : Z) (mrs : shr_record) : Prop :=
  shr_m mrs = M / 2 ^ n /\ (shr_r mrs = true -> 2 ^ n <= 2 * (M mod 2 ^ n)).

End Exact.
Import Exact.

Module Spec.

(** A contact alias counts as supplied when its value is truthy: for a
    form field, a non-empty string. *)
Definition supplied (v : value) : bool := truthy v.

(** The canonical phone number: [phone], else [whatsapp], else [number]. *)
Definition canonical_contact (body : object) : value :=
  if supplied (prop body "phone") then prop body "phone"
  else if supplied (prop body "whatsapp") then prop body "whatsapp"
  else prop body "number".


(** The record has [q] as its [phone], [whatsapp] or [number]: the field
    is equal to [q]. *)
Definition has_contact (q : string) (d : stored Applicant.t) : Prop :=
  Applicant.phone (fields d) = VString q
  \/ Applicant.whatsapp (fields d) = VString q
  \/ Applicant.number (fields d) = VString q.

(** A stored value holds [q]: it is the string [q], or an array with the
    string [q] among its elements. *)
Definition holds (v : value) (q : string) : Prop :=
  v = VString q \/ exists elements, v = VArray elements /\ VString q ∈ elements.

(** The record holds [q] in its [phone], [whatsapp] or [number]. *)
Definition holds_contact (q : string) (d : stored Applicant.t) : Prop :=
  holds (Applicant.phone (fields d)) q
  \/ holds (Applicant.whatsapp (fields d)) q
  \/ holds (Applicant.number (fields d)) q.

(** The request names [s] under one of the three contact aliases. *)
Definition submits_contact (body : object) (s : string) : Prop :=
  prop body "phone" = VString s
  \/ prop body "whatsapp" = VString s
  \/ prop body "number" = VString s.

(** One document was appended to a collection. *)
Definition inserted {D} (before after : option (collection D)) (d : stored D) : Prop :=
  exists c, before = Some c /\ after = Some (c ++ [d]).

(** Response classes by HTTP status. *)
Definition client_error (r : response) : Prop := 400 <= status r < 500.
Definition server_error (r : response) : Prop := 500 <= status r < 600.

(** The responses of the lookups. *)
Definition not_found : response := res_status 404 (JMsg "Not found").
Definition unsuccessful : response := res_json JUnsuccessful.
Definition generic_server_error : response := res_status 500 (JFailure "Server error").
Definition missing_fields : response := res_json (JMsg "Missing fields").

(** A required booking field is missing from the body. *)
Definition missing_required (body : object) : Prop :=
  body !! "applicantId" = None \/ body !! "source" = None
  \/ body !! "destination" = None \/ body !! "paymentType" = None.

(** All four required booking fields are present (truthy). *)
Definition required_present (body : object) : Prop :=
  truthy (prop body "applicantId") = true /\ truthy (prop body "source") = true
  /\ truthy (prop body "destination") = true /\ truthy (prop body "paymentType") = true.

End Spec.
Import Spec.

(** ** The rest of [server.js]: start-up, uploads and the routing table *)

Module Boot.

(** [process.env], once [dotenv] has loaded it. *)
Abbreviation environ := (gmap string string).

(** [process.env.K]: a string, or [undefined]. *)
Definition getenv (e : environ) (k : string) : value :=
  from_option VString VUndefined (e !! k).

(** The options handed to [new MongoClient(uri, options)]. *)
Record MongoOptions := { serverSelectionTimeoutMS : Z; tls : bool }.

(** What the top level of the script settles before it listens. *)
Record Config := { uri : value; options : option MongoOptions; PORT : value }.

(** ES-module copy: [MONGO_URI] is required; [None] is [process.exit(1)]. *)
Definition ESM_config (e : environ) : option Config :=
  let uri := getenv e "MONGO_URI" in
  if negb (truthy uri) then None
  else Some {| uri := uri;
               options := Some {| serverSelectionTimeoutMS := 5000; tls := true |};
               PORT := or_else (getenv e "PORT") (VNumber (lit 5000)) |}.

(** CommonJS copy: [MONGO_URI] falls back to a local server. *)
Definition CJS_config (e : environ) : Config :=
  {| uri := or_else (getenv e "MONGO_URI") (VString "mongodb://127.0.0.1:27017");
     options := None;
     PORT := or_else (getenv e "PORT") (VNumber (lit 5000)) |}.

(** [let applications, tickets;] before [connectDB] has run. *)
Definition boot : State := {| applications := None; tickets := None |}.

(** [connectDB()], given how [client.connect()] and the two
    [db.collection] calls turn out: both handles are assigned, or the
    process exits ([None]). *)
Definition connectDB_outcome
    (db : throws (collection Applicant.t * collection Ticket.t)) : option State :=
  match db with
  | inr (apps, tks) => Some (connectDB apps tks)
  | inl _ => None
  end.

End Boot.

Module Upload.

(** The [filename] callback of [multer.diskStorage]:
    [Date.now() + "-" + file.originalname]. *)
Definition storage_filename `{Host} (now : Z) (originalname : string) : string :=
  Number_toString (lit now) +:+ "-" +:+ originalname.

(** The file object multer leaves in [req.files] for an upload. *)
Definition stored_file `{Host} (now : Z) (name : string) : File :=
  {| originalname := name; filename := storage_filename now name |}.

(** Reading a stored name back: the leading digits, a hyphen, the rest. *)
Fixpoint leading_digits (s : string) : string * string :=
  match s with
  | EmptyString => (EmptyString, EmptyString)
  | String c s' =>
      if is_digit c
      then let '(ds, rest) := leading_digits s' in (String c ds, rest)
      else (EmptyString, s)
  end.

Definition parse_filename (s : string) : option (Z * string) :=
  let '(ds, rest) := leading_digits s in
  match ds, rest with
  | String _ _, String "-" name => n ← digits_value 0 ds; Some (n, name)
  | _, _ => None
  end.

End Upload.

Module Routes.

(** The routes registered on [app]. *)
Inductive request : Type :=
| POST_apply (req : ApplyRequest)
| GET_verify (phone : string)
| GET_applicant (id : string)
| GET_getApplicant (passId : string)
| POST_bookTicket (body : object).

(** Dispatch of a request to its handler (ES-module copy). *)
Definition route `{Host} (env : Env) (st : State) (r : request) : response * State :=
  match r with
  | POST_apply req => ESM.post_apply env st req
  | GET_verify phone => ESM.get_verify env st phone
  | GET_applicant id => ESM.get_applicant env st id
  | GET_getApplicant passId => ESM.get_getApplicant env st passId
  | POST_bookTicket body => ESM.post_bookTicket env st body
  end.

(** What happens to the process: [connectDB] settles, or a request comes
    in.  Each handler makes at most one database call, so requests are
    taken in the order those calls take effect. *)
Inductive event : Type :=
| DbSettled (db : throws (collection Applicant.t * collection Ticket.t))
| Incoming (env : Env) (r : request).

(** One event; the process is [None] once it has exited. *)
Definition step `{Host} (proc : option State) (e : event)
  : option response * option State :=
  match proc with
  | None => (None, None)
  | Some st =>
      match e with
      | DbSettled db => (None, Boot.connectDB_outcome db)
      | Incoming env r => let '(resp, st') := route env st r in (Some resp, Some st')
      end
  end.

(** A run of the process: the responses sent, oldest first, and where the
    process ends up. *)
Fixpoint run `{Host} (proc : option State) (es : list event)
  : list response * option State :=
  match es with
  | [] => ([], proc)
  | e :: es' =>
      let '(resp, proc') := step proc e in
      let '(resps, final) := run proc' es' in
      (from_option (fun r => [r]) [] resp ++ resps, final)
  end.

(** The tickets and the applications a list of responses reports. *)
Definition tickets_reported (resps : list response) : list (stored Ticket.t) :=
  omap (fun r => match json r with JTicket t => Some t | _ => None end) resps.

Definition applications_reported (resps : list response)
  : list (ObjectId * string * string) :=
  omap (fun r => match json r with
                 | JApplied _ id passId qrCode => Some (id, passId, qrCode)
                 | _ => None
                 end) resps.

(** The same three components of a stored record. *)
Definition issued (d : stored Applicant.t) : ObjectId * string * string :=
  (_id d, Applicant.passId (fields d), Applicant.qrCode (fields d)).

(** The body reports an error: [{ error }] or [{ success: false, error }]. *)
Definition reports_error (b : payload) : bool :=
  match b with
  | JError _ | JFailure _ => true
  | _ => false
  end.

(** Only requests, no [connectDB] settling among the events. *)
Definition requests_only (es : list event) : Prop :=
  Forall (fun e => exists env r, e = Incoming env r) es.

(** A collection handle keeps its records and may gain some at the end. *)
Definition grows {D} (before after : option (collection D)) : Prop :=
  match before, after with
  | Some c, Some c' => c `prefix_of` c'
  | None, None => True
  | _, _ => False
  end.

End Routes.

(** ** Sample runs *)

Module Scenario.

(** The one application of the samples, its response and what it issued. *)
Definition applied : response * State :=
  ESM.post_apply (H := Sample.host) Sample.env Sample.empty Sample.phone_111.
Definition issued_id : ObjectId := "65529d7e0000000000000001".
Definition issued_passId : string := "TSRTC-55000000".
Definition issued_qrCode : string := "data:image/png;base64,TSRTC-55000000".
Definition applied_response : response :=
  res_json (JApplied "✅ Application stored in MongoDB" issued_id issued_passId issued_qrCode).

(** A booking whose [applicantId] is no ObjectId. *)
Definition booking_bad_id : object :=
  <["applicantId" := VString "xyz"]> (Sample.booking "FREE" VUndefined).

(** A form with a photo that multer stored at the sample time. *)
Definition with_photo : ApplyRequest :=
  {| apply_body := {[ "phone" := VString "111" ]};
     apply_files :=
       Some {[ "photo" := [Upload.stored_file (H := Sample.host) 1700000000000 "me.png"] ]} |}.

(** Three requests in a row: apply, verify, book. *)
Definition session : list Routes.event :=
  [ Routes.Incoming Sample.env (Routes.POST_apply Sample.phone_111);
    Routes.Incoming Sample.env (Routes.GET_verify "111");
    Routes.Incoming Sample.env
      (Routes.POST_bookTicket (Sample.booking "PAID" (VString "500"))) ].

End Scenario.

(** * Binary64 rounding

    Facts about [SFmul], [SFadd] and the rounding they share, enough to
    bound [10000000 + Math.random() * 90000000]. *)

Module NumberFacts.

Lemma fexp_eq e : fexp prec emax e = Z.max (e - 53) (- 1074).
Proof. reflexivity. Qed.

Lemma digits2_size p : digits2_pos p = Pos.size p.
Proof. induction p; simpl; congruence. Qed.

Lemma digits_bounds p :
  2 ^ (Zpos (digits2_pos p) - 1) <= Zpos p < 2 ^ Zpos (digits2_pos p).
Proof.
  rewrite digits2_size. split.
  - pose proof (Pos.size_le p) as Hle.
    assert (2 ^ Zpos (Pos.size p) <= 2 * Zpos p) as H2.
    { rewrite <- Pos2Z.inj_pow. change (2 * Zpos p) with (Zpos p~0). lia. }
    replace (Zpos (Pos.size p)) with (Zpos (Pos.size p) - 1 + 1) in H2 by lia.
    rewrite Z.pow_add_r in H2 by lia. lia.
  - pose proof (Pos.size_gt p) as Hgt.
    rewrite <- Pos2Z.inj_pow. lia.
Qed.

Lemma digits_le p n : 0 <= n -> Zpos p < 2 ^ n -> Zpos (digits2_pos p) <= n.
Proof.
  intros Hn Hp. destruct (digits_bounds p) as [Hlo _].
  destruct (Z.le_gt_cases (Zpos (digits2_pos p)) n) as [|Hgt]; [done|].
  assert (2 ^ n <= 2 ^ (Zpos (digits2_pos p) - 1)) by (apply Z.pow_le_mono_r; lia).
  lia.
Qed.

Lemma shr_1_inv M n mrs :
  0 <= M -> 0 <= n -> shr_inv M n mrs -> shr_inv M (n + 1) (shr_1 mrs).
Proof.
  intros HM Hn [Hm Hr]. destruct mrs as [m r s]. simpl in Hm, Hr.
  assert (0 < 2 ^ n) as Hpow by (apply Z.pow_pos_nonneg; lia).
  assert (0 <= m) as Hm0 by (subst m; apply Z.div_pos; lia).
  assert (M / 2 ^ (n + 1) = m / 2) as Hdiv.
  { rewrite Z.pow_add_r, Z.pow_1_r by lia. rewrite <- Z.div_div by lia. by rewrite Hm. }
  assert (M mod 2 ^ (n + 1) = M mod 2 ^ n + 2 ^ n * (m mod 2)) as Hmod.
  { rewrite Z.pow_add_r, Z.pow_1_r by lia. rewrite Z.rem_mul_r by lia. by rewrite Hm. }
  assert (0 <= M mod 2 ^ n) by (apply Z.mod_pos_bound; lia).
  unfold shr_inv. rewrite Hdiv, Hmod, Z.pow_add_r, Z.pow_1_r by lia.
  clear Hm Hdiv Hmod.
  destruct m as [|[p|p|]|p]; cbn [shr_1 shr_m shr_r]; try lia.
  - change (0 / 2) with 0. split; [done | intros [=]].
  - assert (Zpos p~1 / 2 = Zpos p /\ Zpos p~1 mod 2 = 1) as [-> ->]
      by (Z.div_mod_to_equations; lia).
    split; [done | lia].
  - assert (Zpos p~0 / 2 = Zpos p) as -> by (Z.div_mod_to_equations; lia).
    split; [done | intros [=]].
  - change (1 / 2) with 0. change (1 mod 2) with 1. split; [done | lia].
Qed.

Lemma iter_pos_shr_inv M p : forall n mrs,
  0 <= M -> 0 <= n -> shr_inv M n mrs ->
  shr_inv M (n + Zpos p) (SpecFloat.iter_pos shr_1 p mrs).
Proof.
  induction p as [p IH|p IH|]; intros n mrs HM Hn Hinv; simpl.
  - replace (n + Zpos p~1) with (n + 1 + Zpos p + Zpos p) by lia.
    apply IH; [lia..|]. apply IH; [lia..|]. by apply shr_1_inv.
  - replace (n + Zpos p~0) with (n + Zpos p + Zpos p) by lia.
    apply IH; [lia..|]. by apply IH.
  - by apply shr_1_inv.
Qed.

Lemma shr_spec (M : Z) e k :
  0 <= M -> 0 <= k ->
  shr_inv M k (fst (shr (Build_shr_record M false false) e k))
  /\ snd (shr (Build_shr_record M false false) e k) = e + k.
Proof.
  intros HM Hk.
  assert (shr_inv M 0 (Build_shr_record M false false)) as H0.
  { split; simpl; [by rewrite Z.div_1_r | done]. }
  destruct k as [|p|p]; simpl; [| |lia].
  - split; [done | lia].
  - split; [|done]. by apply (iter_pos_shr_inv M p 0).
Qed.

Lemma shr_nonpos mrs e n : n <= 0 -> shr mrs e n = (mrs, e).
Proof. destruct n; [done | lia | done]. Qed.

Lemma round_nearest_even_bounds mrs :
  shr_m mrs <= round_nearest_even (shr_m mrs) (loc_of_shr_record mrs) <= shr_m mrs + 1
  /\ (shr_r mrs = false ->
      round_nearest_even (shr_m mrs) (loc_of_shr_record mrs) = shr_m mrs).
Proof.
  destruct mrs as [m [] []]; simpl; try destruct (Z.even m); (split; [lia | done]).
Qed.

Lemma binary_round_aux_spec (M : positive) (E : Z) :
  let k := fexp prec emax (Zpos (digits2_pos M) + E) - E in
  0 <= k -> E + k <= 970 ->
  exists q,
    Zpos M / 2 ^ k <= q <= Zpos M / 2 ^ k + 1
    /\ (2 * (Zpos M mod 2 ^ k) < 2 ^ k -> q = Zpos M / 2 ^ k)
    /\ denotes (binary_round_aux prec emax false (Zpos M) E loc_Exact)
         (q * 2 ^ (E + k + scale)).
Proof.
  intros k Hk Hov.
  unfold binary_round_aux, shr_fexp. cbn [shr_record_of_loc Zdigits2].
  fold k.
  destruct (shr_spec (Zpos M) E k) as [[Hm Hr] He]; [lia..|].
  destruct (shr _ E k) as [mrs e']. cbn [fst snd] in Hm, Hr, He. subst e'.
  destruct (round_nearest_even_bounds mrs) as [Hq Hexact].
  set (q := round_nearest_even (shr_m mrs) (loc_of_shr_record mrs)) in *.
  rewrite Hm in Hq, Hexact.
  exists q. split; [done|]. split.
  { intros Hlt. apply Hexact. destruct (shr_r mrs); [|done]. specialize (Hr eq_refl). lia. }
  pose proof (digits_bounds M) as [_ HMhi].
  assert (k = Z.max (Zpos (digits2_pos M) + E - 53) (- 1074) - E) as Hkdef by done.
  assert (0 < 2 ^ k) as Hpow by (apply Z.pow_pos_nonneg; lia).
  assert (q <= 2 ^ 53) as Hq53.
  { assert (Zpos M / 2 ^ k < 2 ^ 53); [|lia].
    apply Z.div_lt_upper_bound; [lia|]. rewrite <- Z.pow_add_r by lia.
    eapply Z.lt_le_trans; [exact HMhi|]. apply Z.pow_le_mono_r; lia. }
  assert (0 <= Zpos M / 2 ^ k) by (apply Z.div_pos; lia).
  clearbody q. clear Hm Hr Hexact mrs.
  set (F := E + k) in *. assert (- 1074 <= F <= 970) as HF by lia.
  destruct q as [|pq|pq]; [| |lia].
  - rewrite shr_nonpos by (cbn [Zdigits2]; rewrite fexp_eq; lia).
    cbn [shr_m]. done.
  - destruct (Z.eq_dec (Zpos pq) (2 ^ 53)) as [Heq|Hne].
    + assert (pq = 9007199254740992%positive) as ->
        by (change (2 ^ 53) with 9007199254740992 in Heq; lia).
      assert (Zdigits2 9007199254740992 = 54) as -> by (vm_compute; reflexivity).
      replace (fexp prec emax (54 + F) - F) with 1 by (rewrite fexp_eq; lia).
      cbn [shr SpecFloat.iter_pos shr_1 shr_m].
      replace (F + 1 <=? emax - prec) with true
        by (symmetry; apply Z.leb_le; change (emax - prec) with 971; lia).
      cbn [denotes]. split; [lia|].
      replace (F + 1 + scale) with (1 + (F + scale)) by lia.
      rewrite (Z.pow_add_r 2 1 (F + scale)), Z.pow_1_r by (unfold scale; lia). lia.
    + assert (Zpos (digits2_pos pq) <= 53) by (apply digits_le; lia).
      rewrite shr_nonpos by (cbn [Zdigits2]; rewrite fexp_eq; lia).
      cbn [shr_m].
      replace (F <=? emax - prec) with true
        by (symmetry; apply Z.leb_le; change (emax - prec) with 971; lia).
      cbn [denotes]. split; [lia | done].
Qed.

(** Rounding in terms of values: with [f] the exponent of the result,
    the rounded mantissa [q] is at least every grid point below the exact
    value, and at most every grid point whose upper midpoint lies above it. *)
Lemma binary_round_aux_bounds (M : positive) (E : Z) :
  let f := fexp prec emax (Zpos (digits2_pos M) + E) in
  E <= f -> f <= 970 -> - scale <= E ->
  exists q,
    denotes (binary_round_aux prec emax false (Zpos M) E loc_Exact) (q * 2 ^ (f + scale))
    /\ (forall A, A * 2 ^ (f + scale) <= Zpos M * 2 ^ (E + scale) -> A <= q)
    /\ (forall B, 2 * Zpos M * 2 ^ (E + scale) < (2 * B + 1) * 2 ^ (f + scale) -> q <= B).
Proof.
  intros f HEf Hf HE.
  destruct (binary_round_aux_spec M E) as (q & Hq & Hexact & Hden); [fold f; lia..|].
  fold f in Hq, Hexact, Hden. set (k := f - E) in *.
  replace (E + k + scale) with (f + scale) in Hden by lia.
  assert (0 < 2 ^ k) as Hk by (apply Z.pow_pos_nonneg; lia).
  assert (0 < 2 ^ (E + scale)) as Hs by (apply Z.pow_pos_nonneg; lia).
  assert (2 ^ (f + scale) = 2 ^ k * 2 ^ (E + scale)) as Hsplit.
  { rewrite <- Z.pow_add_r by lia. f_equal. lia. }
  exists q. split; [done|]. rewrite Hsplit. split.
  - intros A HA. assert (A * 2 ^ k <= Zpos M) as HA' by nia.
    assert (A <= Zpos M / 2 ^ k); [|lia].
    apply Z.div_le_lower_bound; lia.
  - intros B HB. assert (2 * Zpos M < (2 * B + 1) * 2 ^ k) as HB' by nia.
    pose proof (Z.div_mod (Zpos M) (2 ^ k) ltac:(lia)) as Hdm.
    pose proof (Z.mod_pos_bound (Zpos M) (2 ^ k) Hk) as Hrem.
    destruct (Z.lt_trichotomy (Zpos M / 2 ^ k) B) as [Hlt|[Heq|Hgt]].
    + lia.
    + rewrite Hexact; [lia|]. nia.
    + nia.
Qed.

Lemma pos_iter_xO p d : Zpos (Pos.iter xO p d) = Zpos p * 2 ^ Zpos d.
Proof.
  induction d as [|d IH] using Pos.peano_ind.
  - simpl. lia.
  - rewrite Pos.iter_succ, Pos2Z.inj_xO, IH, Pos2Z.inj_succ, Z.pow_succ_r by lia. lia.
Qed.

Lemma shl_align_spec m e e' :
  snd (shl_align m e e') = Z.min e e'
  /\ Zpos (fst (shl_align m e e')) = Zpos m * 2 ^ (e - Z.min e e').
Proof.
  unfold shl_align. destruct (e' - e) as [|d|d] eqn:Hd; cbn [fst snd].
  - replace (Z.min e e') with e by lia. rewrite Z.sub_diag. split; lia.
  - replace (Z.min e e') with e by lia. rewrite Z.sub_diag. split; lia.
  - replace (Z.min e e') with e' by lia. split; [done|].
    rewrite pos_iter_xO. f_equal. f_equal. lia.
Qed.

Lemma digits_unique p n :
  2 ^ (n - 1) <= Zpos p < 2 ^ n -> Zpos (digits2_pos p) = n.
Proof.
  intros [Hlo Hhi]. pose proof (digits_bounds p) as [Hlo' Hhi'].
  set (d := Zpos (digits2_pos p)) in *. assert (0 < d) by done.
  destruct (Z.lt_trichotomy d n) as [Hlt|[Heq|Hgt]]; [|done|].
  - assert (2 ^ d <= 2 ^ (n - 1)) by (apply Z.pow_le_mono_r; lia). lia.
  - destruct (Z.le_gt_cases 0 n).
    + assert (2 ^ n <= 2 ^ (d - 1)) by (apply Z.pow_le_mono_r; lia). lia.
    + rewrite Z.pow_neg_r in Hhi by lia. lia.
Qed.

Lemma digits_shift p q n :
  0 <= n -> Zpos q = Zpos p * 2 ^ n ->
  Zpos (digits2_pos q) = Zpos (digits2_pos p) + n.
Proof.
  intros Hn Hq. apply digits_unique. rewrite Hq.
  pose proof (digits_bounds p) as [Hlo Hhi].
  assert (0 < 2 ^ n) by (apply Z.pow_pos_nonneg; lia).
  replace (Zpos (digits2_pos p) + n - 1) with (Zpos (digits2_pos p) - 1 + n) by lia.
  rewrite !Z.pow_add_r by lia. nia.
Qed.

Lemma binary_round_bounds (S : positive) (E : Z) :
  let f := fexp prec emax (Zpos (digits2_pos S) + E) in
  f <= 970 -> - scale <= E ->
  exists q,
    denotes (binary_round prec emax false S E) (q * 2 ^ (f + scale))
    /\ (forall A, A * 2 ^ (f + scale) <= Zpos S * 2 ^ (E + scale) -> A <= q)
    /\ (forall B, 2 * Zpos S * 2 ^ (E + scale) < (2 * B + 1) * 2 ^ (f + scale) -> q <= B).
Proof.
  intros f Hf HE. unfold binary_round. fold f.
  destruct (shl_align_spec S E f) as [He Hm].
  destruct (shl_align S E f) as [mz ez]. cbn [fst snd] in He, Hm. subst ez.
  assert (- 1074 <= f) as Hf' by (unfold f; rewrite fexp_eq; lia).
  assert (Zpos (digits2_pos mz) + Z.min E f = Zpos (digits2_pos S) + E) as Hd.
  { rewrite (digits_shift S mz (E - Z.min E f)); [lia | lia | done]. }
  destruct (binary_round_aux_bounds mz (Z.min E f)) as (q & Hden & Hlo & Hhi);
    rewrite ?Hd; fold f; [lia|lia|unfold scale in *; lia|].
  rewrite Hd in Hden, Hlo, Hhi. fold f in Hden, Hlo, Hhi.
  assert (Zpos mz * 2 ^ (Z.min E f + scale) = Zpos S * 2 ^ (E + scale)) as Hval.
  { rewrite Hm, <- Z.mul_assoc, <- Z.pow_add_r by (unfold scale in *; lia).
    f_equal. f_equal. lia. }
  exists q. split; [done|]. split.
  - intros A HA. apply Hlo. by rewrite Hval.
  - intros B HB. apply Hhi. by rewrite <- Z.mul_assoc, Hval, Z.mul_assoc.
Qed.

Lemma lit_1 : lit 1 = S754_finite false 4503599627370496 (- 52).
Proof. vm_compute. reflexivity. Qed.

Lemma SFltb_finite m e m' e' :
  SFltb (S754_finite false m e) (S754_finite false m' e') = true ->
  e < e' \/ (e = e' /\ Zpos m < Zpos m').
Proof.
  unfold SFltb, SFcompare. destruct (Z.compare_spec e e') as [Heq|Hlt|Hgt].
  - intros Hc. right. split; [exact Heq|].
    destruct (Pos.compare_cont Eq m m') eqn:Hcmp; try discriminate. exact Hcmp.
  - intros _. by left.
  - discriminate.
Qed.

Lemma unit_interval_inv r :
  unit_interval r = true ->
  (exists s, r = S754_zero s)
  \/ (exists m e, r = S754_finite false m e /\ - 1074 <= e <= - 53 /\ Zpos m < 2 ^ 53).
Proof.
  unfold unit_interval. rewrite lit_1. intros Hr.
  apply andb_prop in Hr as [Hr Hlt]. apply andb_prop in Hr as [Hvalid Hle].
  destruct r as [s|s| |s m e].
  - left. by exists s.
  - destruct s; discriminate.
  - discriminate.
  - right. destruct s; [discriminate|]. exists m, e. split; [reflexivity|].
    cbn [valid_binary] in Hvalid. unfold bounded, canonical_mantissa in Hvalid.
    apply andb_prop in Hvalid as [Hcanon _]. apply Z.eqb_eq in Hcanon.
    rewrite fexp_eq in Hcanon.
    pose proof (digits_bounds m) as [Hlo Hhi].
    set (d := Zpos (digits2_pos m)) in *.
    assert (d <= 53 /\ - 1074 <= e) as [Hd He] by lia.
    assert (Zpos m < 2 ^ 53) as Hm.
    { eapply Z.lt_le_trans; [exact Hhi|]. apply Z.pow_le_mono_r; lia. }
    split; [|exact Hm]. split; [exact He|].
    apply SFltb_finite in Hlt as [Hlt|[He52 Hlt]]; [lia|].
    exfalso. assert (d = 53) as Hd53 by lia. rewrite Hd53 in Hlo.
    replace (2 ^ (53 - 1)) with 4503599627370496 in Hlo by (vm_compute; reflexivity).
    lia.
Qed.

Lemma lit_90000000 : lit 90000000 = S754_finite false 6039797760000000 (- 26).
Proof. vm_compute. reflexivity. Qed.

Lemma lit_10000000 : lit 10000000 = S754_finite false 5368709120000000 (- 29).
Proof. vm_compute. reflexivity. Qed.

(** [Math.random() * 90000000] stays below [90000000]: at most
    [90000000 - 2^-26], the largest Number under it. *)
Lemma mul_random_bound m e :
  - 1074 <= e <= - 53 -> Zpos m < 2 ^ 53 ->
  exists v,
    denotes (Number_mul (S754_finite false m e) (lit 90000000)) v
    /\ 0 <= v <= 6039797759999999 * 2 ^ (scale - 26).
Proof.
  intros He Hm. rewrite lit_90000000. unfold Number_mul, SFmul. cbn [xorb].
  set (M := (m * 6039797760000000)%positive).
  assert (Zpos M = Zpos m * 6039797760000000) as HM by (unfold M; lia).
  set (E := e + - 26).
  pose proof (digits_bounds M) as [HdLo HdHi].
  assert (0 < 2 ^ (- e - 53)) as HP by (apply Z.pow_pos_nonneg; lia).
  assert (2 ^ (- e) = 2 ^ 53 * 2 ^ (- e - 53)) as Hpe.
  { rewrite <- Z.pow_add_r by lia. f_equal. lia. }
  assert (2 ^ 53 = 9007199254740992) as H53 by (vm_compute; reflexivity).
  assert (52 < Zpos (digits2_pos M)) as Hd52.
  { apply (Z.pow_lt_mono_r_iff 2); [lia | lia |].
    assert (2 ^ 52 = 4503599627370496) as -> by (vm_compute; reflexivity). lia. }
  assert (Zpos (digits2_pos M) <= 53 - e) as Hd53.
  { apply digits_le; [lia|]. replace (53 - e) with (53 + - e) by lia.
    rewrite Z.pow_add_r, Hpe, H53 by lia. rewrite H53 in Hm. nia. }
  pose proof (binary_round_aux_bounds M E) as Hround. cbv zeta in Hround.
  set (f := fexp prec emax (Zpos (digits2_pos M) + E)) in *.
  assert (E <= f <= - 26) as Hf by (unfold f; rewrite fexp_eq; unfold E; lia).
  destruct Hround as (q & Hden & Hlo & Hhi); [lia | lia | unfold E, scale; lia |].
  assert (0 < 2 ^ (E + scale)) as HT by (apply Z.pow_pos_nonneg; unfold E, scale; lia).
  assert (0 < 2 ^ (f + scale)) as HTf by (apply Z.pow_pos_nonneg; unfold E, scale in *; lia).
  exists (q * 2 ^ (f + scale)). split; [exact Hden|]. split.
  { assert (0 <= q) by (apply Hlo; lia). lia. }
  destruct (Z.eq_dec f (- 26)) as [Hf26|Hf26].
  - assert (q <= 6039797759999999) as Hq.
    { apply Hhi. rewrite Hf26.
      replace (- 26 + scale) with (- e + (E + scale)) by (unfold E; lia).
      rewrite (Z.pow_add_r 2 (- e) (E + scale)), Hpe, H53, HM by (unfold E, scale; lia).
      rewrite H53 in Hm.
      assert (2 * (Zpos m * 6039797760000000)
              < (2 * 6039797759999999 + 1) * (9007199254740992 * 2 ^ (- e - 53))) by nia.
      nia. }
    rewrite Hf26. replace (- 26 + scale) with (scale - 26) by lia.
    apply Z.mul_le_mono_nonneg_r; [|exact Hq]. apply Z.pow_nonneg. lia.
  - assert (Zpos (digits2_pos M) + E <= 26) as Hd26
      by (unfold f in Hf, Hf26; rewrite fexp_eq in Hf, Hf26; lia).
    assert (q <= 2 ^ (26 - f)) as Hq.
    { apply Hhi.
      assert (Zpos M * 2 ^ (E + scale) < 2 ^ (26 - f) * 2 ^ (f + scale)); [|lia].
      rewrite <- Z.pow_add_r by (unfold E, scale in *; lia).
      replace (26 - f + (f + scale)) with (26 - E + (E + scale)) by lia.
      rewrite (Z.pow_add_r 2 (26 - E) (E + scale)) by (unfold E, scale in *; lia).
      apply Z.mul_lt_mono_pos_r; [exact HT|].
      eapply Z.lt_le_trans; [exact HdHi|]. apply Z.pow_le_mono_r; lia. }
    assert (q * 2 ^ (f + scale) <= 2 ^ (26 - f) * 2 ^ (f + scale)) as Hv
      by (apply Z.mul_le_mono_nonneg_r; lia).
    rewrite <- Z.pow_add_r in Hv by (unfold E, scale in *; lia).
    replace (26 - f + (f + scale)) with (52 + (scale - 26)) in Hv by lia.
    rewrite (Z.pow_add_r 2 52 (scale - 26)) in Hv by (unfold scale; lia).
    assert (2 ^ 52 = 4503599627370496) as H52 by (vm_compute; reflexivity).
    rewrite H52 in Hv.
    assert (0 < 2 ^ (scale - 26)) by (apply Z.pow_pos_nonneg; unfold scale; lia).
    nia.
Qed.

(** [10000000 + y] for [0 <= y < 90000000] lies between [10000000] and
    [100000000 - 2^-26]. *)
Lemma add_base_bound y v :
  denotes y v -> 0 <= v <= 6039797759999999 * 2 ^ (scale - 26) ->
  exists w,
    denotes (Number_add (lit 10000000) y) w
    /\ 10000000 * 2 ^ scale <= w <= 6710886399999999 * 2 ^ (scale - 26).
Proof.
  intros Hy Hv. rewrite lit_10000000.
  assert (2 ^ scale = 2 ^ 26 * 2 ^ (scale - 26)) as Hs26
    by (rewrite <- Z.pow_add_r by (unfold scale; lia); f_equal).
  assert (2 ^ scale = 2 ^ 29 * 2 ^ (- 29 + scale)) as Hs29
    by (rewrite <- Z.pow_add_r by (unfold scale; lia); f_equal).
  assert (2 ^ 26 = 67108864) as H26 by (vm_compute; reflexivity).
  assert (2 ^ 29 = 536870912) as H29 by (vm_compute; reflexivity).
  assert (0 < 2 ^ (scale - 26)) as Hp26 by (apply Z.pow_pos_nonneg; unfold scale; lia).
  assert (0 < 2 ^ (- 29 + scale)) as Hp29 by (apply Z.pow_pos_nonneg; unfold scale; lia).
  assert (5368709120000000 * 2 ^ (- 29 + scale) = 10000000 * 2 ^ scale) as Hbase
    by (rewrite Hs29, H29; lia).
  destruct y as [[]| | |[] my ey]; try (exfalso; exact Hy).
  - (* y = 0 *)
    exists (5368709120000000 * 2 ^ (- 29 + scale)). split; [by split|].
    rewrite Hbase, Hs26, H26. lia.
  - destruct Hy as [Hey ->].
    unfold Number_add, SFadd. cbn [cond_Zopp].
    set (ez := Z.min (- 29) ey).
    destruct (shl_align_spec 5368709120000000 (- 29) ez) as [_ Hx].
    destruct (shl_align_spec my ey ez) as [_ Hy].
    replace (Z.min (- 29) ez) with ez in Hx by lia.
    replace (Z.min ey ez) with ez in Hy by lia.
    set (a := fst (shl_align 5368709120000000 (- 29) ez)) in *.
    set (b := fst (shl_align my ey ez)) in *.
    change (Zpos a + Zpos b) with (Zpos (a + b)). cbn [binary_normalize].
    assert (- scale <= ez) as Hez by (unfold scale; lia).
    assert (Zpos (a + b) * 2 ^ (ez + scale)
            = 10000000 * 2 ^ scale + Zpos my * 2 ^ (ey + scale)) as Hsum.
    { rewrite Pos2Z.inj_add, Hx, Hy, Z.mul_add_distr_r, <- !Z.mul_assoc.
      rewrite <- !Z.pow_add_r by lia.
      replace (- 29 - ez + (ez + scale)) with (- 29 + scale) by lia.
      replace (ey - ez + (ez + scale)) with (ey + scale) by lia.
      by rewrite Hbase. }
    set (v := Zpos my * 2 ^ (ey + scale)) in *.
    pose proof (binary_round_bounds (a + b) ez) as Hround. cbv zeta in Hround.
    set (f := fexp prec emax (Zpos (digits2_pos (a + b)) + ez)) in *.
    assert (0 < 2 ^ (ez + scale)) as HT by (apply Z.pow_pos_nonneg; lia).
    assert (- 1074 <= f <= - 26) as Hf.
    { assert (Zpos (digits2_pos (a + b)) <= 27 - ez); [|unfold f; rewrite fexp_eq; lia].
      apply digits_le; [lia|].
      apply (Z.mul_lt_mono_pos_r (2 ^ (ez + scale))); [exact HT|].
      rewrite <- Z.pow_add_r, Hsum by lia.
      replace (27 - ez + (ez + scale)) with (53 + (scale - 26)) by lia.
      rewrite Z.pow_add_r, Hs26, H26 by (unfold scale; lia).
      assert (2 ^ 53 = 9007199254740992) as -> by (vm_compute; reflexivity). lia. }
    destruct Hround as (q & Hden & Hlo & Hhi); [lia | lia |].
    assert (0 < 2 ^ (f + scale)) as HTf by (apply Z.pow_pos_nonneg; unfold scale; lia).
    assert (2 ^ scale = 2 ^ (- f) * 2 ^ (f + scale)) as Hsf
      by (rewrite <- Z.pow_add_r by (unfold scale; lia); f_equal; lia).
    assert (2 ^ (scale - 26) = 2 ^ (- 26 - f) * 2 ^ (f + scale)) as Hsf26
      by (rewrite <- Z.pow_add_r by (unfold scale; lia); f_equal; lia).
    exists (q * 2 ^ (f + scale)). split; [exact Hden|]. split.
    + assert (10000000 * 2 ^ (- f) <= q) as Hq.
      { apply Hlo. rewrite Hsum, <- Z.mul_assoc, <- Hsf. lia. }
      rewrite Hsf at 1. rewrite Z.mul_assoc.
      apply Z.mul_le_mono_nonneg_r; lia.
    + assert (q <= 6710886399999999 * 2 ^ (- 26 - f)) as Hq.
      { apply Hhi. rewrite <- Z.mul_assoc, Hsum.
        assert (2 * (10000000 * 2 ^ scale + v)
                <= 2 * (6710886399999999 * 2 ^ (- 26 - f)) * 2 ^ (f + scale)); [|lia].
        rewrite <- (Z.mul_assoc 2), <- (Z.mul_assoc 6710886399999999), <- Hsf26.
        rewrite Hs26, H26. lia. }
      rewrite Hsf26, Z.mul_assoc.
      apply Z.mul_le_mono_nonneg_r; lia.
Qed.

Lemma integer_value_denotes m e z :
  - 1074 <= e -> Zpos m * 2 ^ (e + scale) = z * 2 ^ scale ->
  integer_value m e = Some z.
Proof.
  intros He Hz. unfold integer_value.
  assert (0 < 2 ^ scale) as Hs by (apply Z.pow_pos_nonneg; unfold scale; lia).
  destruct (Z.leb_spec 0 e) as [Hpos|Hneg].
  - rewrite (Z.add_comm e), Z.pow_add_r, (Z.mul_comm (2 ^ scale)), Z.mul_assoc in Hz
      by (unfold scale; lia).
    f_equal. nia.
  - assert (0 < 2 ^ (- e)) as Hp by (apply Z.pow_pos_nonneg; lia).
    assert (0 < 2 ^ (e + scale)) as Hq by (apply Z.pow_pos_nonneg; unfold scale; lia).
    assert (2 ^ scale = 2 ^ (- e) * 2 ^ (e + scale)) as Hsplit
      by (rewrite <- Z.pow_add_r by (unfold scale; lia); f_equal; lia).
    assert (Zpos m = z * 2 ^ (- e)) as -> by (rewrite Hsplit in Hz; nia).
    rewrite Z.mod_mul, Z.div_mul by lia. by rewrite Z.eqb_refl.
Qed.

(** [Math.floor] of a positive Number, rendered by a template literal. *)
Lemma floor_toString `{Host} x w z :
  denotes x w -> 0 < z < 2 ^ 53 -> z * 2 ^ scale <= w < (z + 1) * 2 ^ scale ->
  Number_toString (Math_floor x) = decimal z.
Proof.
  intros Hx Hz Hw.
  assert (0 < 2 ^ scale) as Hs by (apply Z.pow_pos_nonneg; unfold scale; lia).
  assert (2 ^ 53 < 10 ^ 21) as Hbig by (vm_compute; reflexivity).
  destruct x as [[]| | |[] m e]; try (exfalso; exact Hx).
  { cbn [denotes] in Hx. nia. }
  destruct Hx as [He ->]. unfold Math_floor.
  destruct (Z.leb_spec 0 e) as [Hpos|Hneg].
  - (* already an integer *)
    unfold Number_toString.
    assert (Zpos m * 2 ^ e = z) as Hval.
    { rewrite (Z.add_comm e), Z.pow_add_r, (Z.mul_comm (2 ^ scale)), Z.mul_assoc in Hw
        by (unfold scale; lia).
      assert (0 < 2 ^ e) by (apply Z.pow_pos_nonneg; lia). nia. }
    unfold integer_value. rewrite (proj2 (Z.leb_le 0 e) Hpos), Hval.
    by rewrite (proj2 (Z.ltb_lt z (10 ^ 21))) by lia.
  - assert (0 < 2 ^ (- e)) as Hp by (apply Z.pow_pos_nonneg; lia).
    assert (0 < 2 ^ (e + scale)) as Hq by (apply Z.pow_pos_nonneg; unfold scale; lia).
    assert (2 ^ scale = 2 ^ (- e) * 2 ^ (e + scale)) as Hsplit
      by (rewrite <- Z.pow_add_r by (unfold scale; lia); f_equal; lia).
    assert (Zpos m / 2 ^ (- e) = z) as ->.
    { symmetry. apply (Z.div_unique_pos _ _ _ (Zpos m - z * 2 ^ (- e))); [|lia].
      rewrite Hsplit in Hw. nia. }
    destruct z as [|pz|pz]; [lia | | lia]. cbn [binary_normalize].
    pose proof (binary_round_bounds pz 0) as Hround. cbv zeta in Hround.
    set (f := fexp prec emax (Zpos (digits2_pos pz) + 0)) in *.
    assert (- 1074 <= f <= 0) as Hf.
    { assert (Zpos (digits2_pos pz) <= 53) by (apply digits_le; lia).
      unfold f. rewrite fexp_eq. lia. }
    destruct Hround as (q & Hden & Hlo & Hhi); [lia | unfold scale; lia |].
    assert (0 < 2 ^ (f + scale)) as HTf by (apply Z.pow_pos_nonneg; unfold scale; lia).
    assert (2 ^ (0 + scale) = 2 ^ (- f) * 2 ^ (f + scale)) as Hsf
      by (rewrite <- Z.pow_add_r by (unfold scale; lia); f_equal; lia).
    assert (q = Zpos pz * 2 ^ (- f)) as ->.
    { apply Z.le_antisymm.
      - apply Hhi. rewrite Hsf. lia.
      - apply Hlo. rewrite Hsf. lia. }
    rewrite <- Z.mul_assoc, <- Hsf, Z.add_0_l in Hden.
    destruct (binary_round prec emax false pz 0) as [[]| | |[] m' e'];
      try (exfalso; exact Hden).
    { cbn [denotes] in Hden. lia. }
    destruct Hden as [He' Hm']. unfold Number_toString.
    rewrite (integer_value_denotes m' e' (Zpos pz)) by done.
    by rewrite (proj2 (Z.ltb_lt (Zpos pz) (10 ^ 21))) by lia.
Qed.

Lemma digit_char_spec d :
  0 <= d <= 9 ->
  is_digit (digit_char d) = true /\ Z.of_nat (nat_of_ascii (digit_char d)) - 48 = d.
Proof.
  intros Hd.
  assert (d = 0 \/ d = 1 \/ d = 2 \/ d = 3 \/ d = 4 \/ d = 5 \/ d = 6 \/ d = 7
          \/ d = 8 \/ d = 9) as Hcases by lia.
  repeat (destruct Hcases as [->|Hcases]; [by vm_compute|]). subst d. by vm_compute.
Qed.

Lemma decimal_go_step fuel n acc :
  10 <= n ->
  decimal_go (S fuel) n acc = decimal_go fuel (n / 10) (String (digit_char (n mod 10)) acc).
Proof. intros Hn. cbn [decimal_go]. by rewrite (proj2 (Z.ltb_ge n 10)) by lia. Qed.

Lemma decimal_go_last fuel n acc :
  n < 10 -> decimal_go (S fuel) n acc = String (digit_char (n mod 10)) acc.
Proof. intros Hn. cbn [decimal_go]. by rewrite (proj2 (Z.ltb_lt n 10)) by lia. Qed.

(** An integer with 8 decimal digits prints as those digits. *)
Lemma decimal_8_digits z :
  10000000 <= z <= 99999999 ->
  String.length (decimal z) = 8%nat /\ digits_value 0 (decimal z) = Some z.
Proof.
  intros Hz. unfold decimal.
  assert (23 <= Z.log2 z) as Hlog.
  { apply Z.log2_le_pow2; [lia|]. change (2 ^ 23) with 8388608. lia. }
  assert (exists fuel, Z.to_nat (Z.log2 z) = (7 + fuel)%nat) as [fuel ->]
    by (exists (Z.to_nat (Z.log2 z) - 7)%nat; lia).
  cbn [Nat.add].
  rewrite !decimal_go_step by (Z.div_mod_to_equations; lia).
  rewrite decimal_go_last by (Z.div_mod_to_equations; lia).
  split; [reflexivity|].
  cbn [digits_value].
  repeat match goal with
  | |- context [is_digit (digit_char ?d)] =>
      let H1 := fresh in let H2 := fresh in
      destruct (digit_char_spec d) as [H1 H2];
      [Z.div_mod_to_equations; lia | rewrite H1, H2; clear H1 H2]
  end.
  f_equal. Z.div_mod_to_equations. lia.
Qed.

Lemma strip_prefix_app p s : strip_prefix p (p +:+ s) = Some s.
Proof.
  induction p as [|a p IH]; [done|].
  change (String a p +:+ s) with (String a (p +:+ s)).
  cbn [strip_prefix]. by rewrite Ascii.eqb_refl.
Qed.

(** The argument of [Math.floor] in [generateUniquePassId]. *)
Lemma scaled_random_bound r :
  unit_interval r = true ->
  exists w,
    denotes (Number_add (lit 10000000) (Number_mul r (lit 90000000))) w
    /\ 10000000 * 2 ^ scale <= w <= 6710886399999999 * 2 ^ (scale - 26).
Proof.
  intros Hr. destruct (unit_interval_inv r Hr) as [[s ->]|(m & e & -> & He & Hm)].
  - rewrite lit_90000000. cbn [Number_mul SFmul].
    apply (add_base_bound (S754_zero false) 0); [done|].
    split; [lia|]. apply Z.mul_nonneg_nonneg; [lia|]. apply Z.pow_nonneg. lia.
  - destruct (mul_random_bound m e He Hm) as (v & Hden & Hv).
    by apply (add_base_bound _ v).
Qed.

End NumberFacts.

Section PassId.
Context `{Host}.
Import NumberFacts.

Lemma generateUniquePassId_digits (r : number) :
  unit_interval r = true ->
  exists n, 10000000 <= n <= 99999999
    /\ ESM.generateUniquePassId r = "TSRTC-" +:+ decimal n.
Proof.
  intros Hr. destruct (scaled_random_bound r Hr) as (w & Hden & Hw).
  assert (0 < 2 ^ scale) as Hs by (apply Z.pow_pos_nonneg; unfold scale; lia).
  assert (2 ^ scale = 67108864 * 2 ^ (scale - 26)) as Hs26.
  { change 67108864 with (2 ^ 26). rewrite <- Z.pow_add_r by (unfold scale; lia).
    f_equal. }
  assert (0 < 2 ^ (scale - 26)) as Hp by (apply Z.pow_pos_nonneg; unfold scale; lia).
  set (n := w / 2 ^ scale).
  pose proof (Z.div_mod w (2 ^ scale) ltac:(lia)) as Hdm.
  pose proof (Z.mod_pos_bound w (2 ^ scale) Hs) as Hrem. fold n in Hdm.
  assert (10000000 <= n <= 99999999) as Hn.
  { split.
    - apply Z.div_le_lower_bound; lia.
    - assert (n < 100000000); [|lia]. apply Z.div_lt_upper_bound; [lia|].
      rewrite Hs26. lia. }
  exists n. split; [exact Hn|].
  unfold ESM.generateUniquePassId. f_equal.
  apply (floor_toString _ w); [exact Hden | | lia].
  change (2 ^ 53) with 9007199254740992. lia.
Qed.

(** C1: every identifier generated from a value of [Math.random()] is
    [TSRTC-] followed by exactly 8 decimal digits, and the number they
    denote lies in [10000000, 99999999]; both copies of the generator. *)
Theorem generateUniquePassId_format (r : number) :
  unit_interval r = true ->
  exists n, 10000000 <= n <= 99999999
    /\ passId_number "TSRTC" (ESM.generateUniquePassId r) = Some n
    /\ passId_number "TSRTC" (CJS.generateUniquePassId r) = Some n.
Proof.
  intros Hr. destruct (generateUniquePassId_digits r Hr) as (n & Hn & Hid).
  exists n. split; [exact Hn|].
  change (CJS.generateUniquePassId r) with (ESM.generateUniquePassId r).
  rewrite Hid. destruct (decimal_8_digits n Hn) as [Hlen Hval].
  assert (passId_number "TSRTC" ("TSRTC-" +:+ decimal n) = Some n); [|done].
  unfold passId_number.
  change ("TSRTC-" +:+ decimal n) with (("TSRTC" +:+ "-") +:+ decimal n).
  by rewrite strip_prefix_app, Hlen.
Qed.

End PassId.

(** * Handlers *)

Section Handlers.
Context `{Host}.

Lemma strict_eq_string_true v s : strict_eq_string v s = true <-> v = VString s.
Proof.
  destruct v; cbn; try (split; [discriminate | congruence]).
  rewrite bool_decide_eq_true. split; congruence.
Qed.

Lemma prop_missing (body : object) k : body !! k = None -> prop body k = VUndefined.
Proof. unfold prop. by intros ->. Qed.

Lemma prop_insert_ne (body : object) k k' v :
  k <> k' -> prop (<[k := v]> body) k' = prop body k'.
Proof. intros Hne. unfold prop. by rewrite lookup_insert_ne. Qed.

Lemma prop_insert_eq (body : object) k v : prop (<[k := v]> body) k = v.
Proof. unfold prop. by rewrite lookup_insert_eq. Qed.

(** C2: a booking request stores a ticket exactly when it is answered
    with one, the ticket is then the last document of the collection, and
    its amount is [Number(amount)] when [paymentType] is the string
    ["PAID"] and zero for every other [paymentType]; and a request with
    the four required fields, an [applicantId] the [ObjectId] constructor
    accepts and the store answering is answered so. *)
Theorem bookTicket_amount_policy env st (body : object) :
  (forall resp st', ESM.post_bookTicket env st body = (resp, st') ->
     (st' = st /\ forall t, json resp <> JTicket t)
     \/ exists t, inserted (tickets st) (tickets st') t
          /\ applications st' = applications st
          /\ resp = res_json (JTicket t)
          /\ ((prop body "paymentType" = VString "PAID"
               /\ Ticket.amount (fields t) = ToNumber (prop body "amount"))
              \/ (prop body "paymentType" <> VString "PAID"
                  /\ Ticket.amount (fields t) = lit 0)))
  /\ (required_present body ->
      forall oid tks,
        ObjectId_new (prop body "applicantId") = inr oid ->
        tickets st = Some tks ->
        mongoFault env = None ->
        exists t,
          ESM.post_bookTicket env st body
          = (res_json (JTicket t),
             {| applications := applications st; tickets := Some (tks ++ [t]) |})
          /\ _id t = insertedId env
          /\ Ticket.applicantId (fields t) = oid
          /\ ((prop body "paymentType" = VString "PAID"
               /\ Ticket.amount (fields t) = ToNumber (prop body "amount"))
              \/ (prop body "paymentType" <> VString "PAID"
                  /\ Ticket.amount (fields t) = lit 0))).
Proof.
  assert (forall t : stored Ticket.t,
            Ticket.amount (fields t)
            = (if strict_eq_string (prop body "paymentType") "PAID"
               then ToNumber (prop body "amount") else lit 0) ->
            (prop body "paymentType" = VString "PAID"
             /\ Ticket.amount (fields t) = ToNumber (prop body "amount"))
            \/ (prop body "paymentType" <> VString "PAID"
                /\ Ticket.amount (fields t) = lit 0)) as Hpolicy.
  { intros t ->. destruct (strict_eq_string _ _) eqn:Hpaid.
    - left. by apply strict_eq_string_true in Hpaid.
    - right. split; [|done]. intros Heq. apply strict_eq_string_true in Heq. congruence. }
  split.
  - intros resp st'. unfold ESM.post_bookTicket, try_catch, member, insertOne.
    destruct (_ || _); [intros [= <- <-]; by left|].
    destruct (ObjectId_new _) as [msg|oid]; [intros [= <- <-]; by left|]. cbn.
    destruct (tickets st) as [tks|]; [|intros [= <- <-]; by left]. cbn.
    destruct (mongoFault env); [intros [= <- <-]; by left|]. cbn.
    intros [= <- <-]. right. eexists. split; [by exists tks|].
    split; [done|]. split; [done|]. by apply Hpolicy.
  - intros (Hid & Hsrc & Hdst & Hpay) oid tks Hoid Htks Hok.
    unfold ESM.post_bookTicket, try_catch, member, insertOne.
    rewrite Hid, Hsrc, Hdst, Hpay, Hoid, Htks, Hok. cbn.
    eexists. split; [reflexivity|]. split; [done|]. split; [done|]. by apply Hpolicy.
Qed.

Lemma or_else_canonical (body : object) :
  or_else (or_else (prop body "phone") (prop body "whatsapp")) (prop body "number")
  = canonical_contact body.
Proof.
  unfold or_else, canonical_contact, supplied.
  destruct (truthy (prop body "phone")) eqn:Hp; [by rewrite Hp | done].
Qed.


(** Case analysis of [POST /apply]: every way the handler can fail leaves
    the state as it was; what remains is the run that stores a record. *)
Ltac handler_fails := by intros [= <- <-]; left.

Ltac run_post_apply apps :=
  unfold ESM.post_apply, try_catch, insertOne;
  destruct (applications _) as [apps|]; [|handler_fails];
  destruct (QRCode_toDataURL _) as [?|?] eqn:?; [handler_fails|]; cbn;
  destruct (upload_path _ "photo") as [?|?]; [handler_fails|]; cbn;
  destruct (upload_path _ "aadharFile") as [?|?]; [handler_fails|]; cbn;
  destruct (mongoFault _); [handler_fails|]; cbn;
  intros [= <- <-]; right.

(** The record [POST /apply] stores carries the host's encoding of its own
    pass id, and the response returns that same pair. *)
Lemma post_apply_encodes_passId env st req resp st' :
  ESM.post_apply env st req = (resp, st') ->
  st' = st
  \/ exists d, inserted (applications st) (applications st') d
       /\ QRCode_toDataURL (Applicant.passId (fields d)) = inr (Applicant.qrCode (fields d))
       /\ resp = res_json (JApplied "✅ Application stored in MongoDB" (_id d)
                             (Applicant.passId (fields d)) (Applicant.qrCode (fields d))).
Proof.
  run_post_apply apps. eexists. split; [by exists apps|]. cbn. by split.
Qed.

(** What [POST /apply] does: it leaves the store as it was, or appends one
    record whose contact fields come from the request as shown. *)
Lemma post_apply_record env st req resp st' :
  ESM.post_apply env st req = (resp, st') ->
  st' = st
  \/ exists d, inserted (applications st) (applications st') d
       /\ tickets st' = tickets st
       /\ Applicant.phone (fields d) = canonical_contact (apply_body req)
       /\ Applicant.whatsapp (fields d)
          = or_else (prop (apply_body req) "whatsapp") (canonical_contact (apply_body req))
       /\ Applicant.number (fields d)
          = or_else (prop (apply_body req) "number") (canonical_contact (apply_body req)).
Proof.
  run_post_apply apps. eexists. split; [by exists apps|]. cbn.
  by rewrite or_else_canonical.
Qed.


Lemma field_is_holds v q : field_is v q = true <-> holds v q.
Proof.
  unfold holds. destruct v as [| | | |t|elements|]; cbn;
    try (split; [discriminate | intros [[=]|(? & [=] & _)]]).
  - rewrite bool_decide_eq_true. split; [intros ->; by left|].
    by intros [[= ->]|(? & [=] & _)].
  - rewrite existsb_exists. split.
    + intros (e & Hin & He). apply strict_eq_string_true in He as ->.
      right. exists elements. split; [done|]. by apply list_elem_of_In.
    + intros [[=]|(? & [= <-] & Hin)]. exists (VString q).
      split; [by apply list_elem_of_In|]. by apply strict_eq_string_true.
Qed.

Lemma contact_filter q (d : stored Applicant.t) :
  field_is (Applicant.phone (fields d)) q
  || field_is (Applicant.whatsapp (fields d)) q
  || field_is (Applicant.number (fields d)) q = true
  <-> holds_contact q d.
Proof.
  unfold holds_contact. rewrite !orb_true_iff, !field_is_holds. tauto.
Qed.

(** A field equal to the query holds it. *)
Lemma has_contact_holds q d : has_contact q d -> holds_contact q d.
Proof. unfold has_contact, holds_contact, holds. tauto. Qed.

(** [GET /verify/:phone] on a connected store answers with the first
    record that holds the number, if there is one. *)
Lemma get_verify_connected env st apps q :
  applications st = Some apps -> mongoFault env = None ->
  (exists d, d ∈ apps /\ holds_contact q d
             /\ ESM.get_verify env st q = (res_json (JVerified (_id d)), st))
  \/ ((forall d, d ∈ apps -> ~ holds_contact q d)
      /\ ESM.get_verify env st q = (unsuccessful, st)).
Proof.
  intros Hconn Hok. unfold ESM.get_verify, try_catch, findOne. rewrite Hconn, Hok. cbn.
  destruct (list_find _ apps) as [[i d]|] eqn:Hfind; cbn.
  - apply list_find_Some in Hfind as (Hi & Hd & _). left. exists d.
    split; [by eapply list_elem_of_lookup_2|]. split; [by apply contact_filter | done].
  - apply list_find_None in Hfind. right. split; [|done].
    intros d Hin Hd. rewrite Forall_forall in Hfind.
    apply (Hfind d Hin). by apply contact_filter.
Qed.

(** C4, as the code has it: on a connected store, [verifyByPhone] reports
    found exactly when some record holds the queried value in its phone,
    whatsapp or number, the field being that string or an array with that
    string among its elements, and then returns the id of such a record; a
    record with a field equal to the queried value is one of them; so a
    record created from a request naming a number under any of the three
    aliases is found by that number. *)
Theorem verifyByPhone_lookup :
  (forall env st apps q,
     applications st = Some apps -> mongoFault env = None ->
     ((exists d, d ∈ apps /\ holds_contact q d) ->
        exists d, d ∈ apps /\ holds_contact q d
          /\ ESM.get_verify env st q = (res_json (JVerified (_id d)), st))
     /\ (~ (exists d, d ∈ apps /\ holds_contact q d) ->
        ESM.get_verify env st q = (unsuccessful, st))
     /\ ((exists d, d ∈ apps /\ has_contact q d) ->
        exists d, d ∈ apps /\ ESM.get_verify env st q = (res_json (JVerified (_id d)), st)))
  /\ (forall env env' st req resp st' s,
       ESM.post_apply env st req = (resp, st') -> st' <> st ->
       submits_contact (apply_body req) s -> s <> "" ->
       mongoFault env' = None ->
       exists apps' d, applications st' = Some apps' /\ d ∈ apps' /\ holds_contact s d
         /\ ESM.get_verify env' st' s = (res_json (JVerified (_id d)), st')).
Proof.
  split.
  - intros env st apps q Hconn Hok.
    destruct (get_verify_connected env st apps q Hconn Hok)
      as [(d & Hin & Hd & ->)|[Hnone ->]].
    + split; [by exists d|]. split; [intros Hno; destruct Hno; by exists d|].
      intros _. by exists d.
    + split; [intros (d & Hin & Hd); by destruct (Hnone d Hin)|]. split; [done|].
      intros (d & Hin & Hd). destruct (Hnone d Hin). by apply has_contact_holds.
  - intros env env' st req resp st' s Hrun Hnew Hs Hne Hok.
    destruct (post_apply_record _ _ _ _ _ Hrun)
      as [->|(d & (apps & Hbefore & Hafter) & _ & Hphone & Hwhatsapp & Hnumber)]; [done|].
    assert (has_contact s d) as Hd.
    { unfold has_contact. rewrite Hphone, Hwhatsapp, Hnumber.
      assert (truthy (VString s) = true) as Ht by (cbn; by rewrite bool_decide_eq_false_2).
      unfold canonical_contact, or_else, supplied.
      destruct Hs as [Hs|[Hs|Hs]]; rewrite Hs.
      - left. by rewrite Ht.
      - right; left. by rewrite Ht.
      - right; right. by rewrite Ht. }
    apply has_contact_holds in Hd.
    destruct (get_verify_connected env' st' _ s Hafter Hok)
      as [(d' & Hin & Hd' & ->)|[Hnone _]]; [by eexists _, d'|].
    destruct (Hnone d); [|done]. apply elem_of_app. right. by apply list_elem_of_singleton.
Qed.


(** C5: a booking request that lacks [applicantId], [source],
    [destination] or [paymentType] is answered with the missing-fields
    error, and the store is left as it was. *)
Theorem bookTicket_missing_fields env st (body : object) :
  missing_required body ->
  ESM.post_bookTicket env st body = (missing_fields, st).
Proof.
  intros Hmiss. unfold ESM.post_bookTicket.
  assert (negb (truthy (prop body "applicantId")) || negb (truthy (prop body "source"))
          || negb (truthy (prop body "destination"))
          || negb (truthy (prop body "paymentType")) = true) as ->; [|done].
  rewrite !orb_true_iff.
  destruct Hmiss as [Hm|[Hm|[Hm|Hm]]]; rewrite (prop_missing _ _ Hm); cbn; tauto.
Qed.

(** C6: on a connected store, a pass id that no record carries is
    answered 404 with the not-found body; the [try] block returns it
    normally, nothing is thrown; and whatever the [catch] block answers is
    a server error, never this response. *)
Theorem getApplicant_not_found env apps tks passId :
  mongoFault env = None ->
  (forall d, d ∈ apps -> Applicant.passId (fields d) <> passId) ->
  ESM.get_getApplicant_try env (connectDB apps tks) passId
  = inr (not_found, connectDB apps tks)
  /\ ESM.get_getApplicant env (connectDB apps tks) passId = (not_found, connectDB apps tks)
  /\ status not_found = 404
  /\ forall env' st' passId' message,
       ESM.get_getApplicant_try env' st' passId' = inl message ->
       server_error (fst (ESM.get_getApplicant env' st' passId'))
       /\ fst (ESM.get_getApplicant env' st' passId') <> not_found.
Proof.
  intros Hok Hnone.
  assert (ESM.get_getApplicant_try env (connectDB apps tks) passId
          = inr (not_found, connectDB apps tks)) as Htry.
  { unfold ESM.get_getApplicant_try, member, findOne. cbn. rewrite Hok. cbn.
    destruct (list_find _ apps) as [[i d]|] eqn:Hfind; [|done].
    apply list_find_Some in Hfind as (Hi & Hd & _).
    apply bool_decide_eq_true in Hd.
    destruct (Hnone d); [by eapply list_elem_of_lookup_2 | done]. }
  split; [exact Htry|]. split; [|split; [done|]].
  - unfold ESM.get_getApplicant. by rewrite Htry.
  - intros env' st' passId' message Hthrown.
    unfold ESM.get_getApplicant. rewrite Hthrown. cbn.
    split; [unfold server_error; cbn; lia | done].
Qed.

(** C7, as the code has it: an id the [ObjectId] constructor rejects is
    answered with the generic server error, the very response given when
    the database call fails; a well-formed id that no record carries is
    answered not-found. *)
Theorem getById_malformed_id env apps tks id :
  (forall message, ObjectId_new (VString id) = inl message ->
     ESM.get_applicant env (connectDB apps tks) id
     = (generic_server_error, connectDB apps tks))
  /\ (forall oid fault, ObjectId_new (VString id) = inr oid ->
       mongoFault env = Some fault ->
       ESM.get_applicant env (connectDB apps tks) id
       = (generic_server_error, connectDB apps tks))
  /\ (forall oid, ObjectId_new (VString id) = inr oid ->
       mongoFault env = None ->
       (forall d, d ∈ apps -> _id d <> oid) ->
       ESM.get_applicant env (connectDB apps tks) id = (unsuccessful, connectDB apps tks)).
Proof.
  split; [|split].
  - intros message Hbad. unfold ESM.get_applicant, try_catch. cbn. by rewrite Hbad.
  - intros oid fault Hgood Hfault.
    unfold ESM.get_applicant, try_catch, findOne. cbn. by rewrite Hgood, Hfault.
  - intros oid Hgood Hok Hnone.
    unfold ESM.get_applicant, try_catch, findOne. cbn. rewrite Hgood, Hok. cbn.
    destruct (list_find _ apps) as [[i d]|] eqn:Hfind; [|done].
    apply list_find_Some in Hfind as (Hi & Hd & _).
    apply bool_decide_eq_true in Hd.
    destruct (Hnone d); [by eapply list_elem_of_lookup_2 | done].
Qed.


(** C9: with the four required fields present, [paymentType] equal to
    ["PAID"], an [applicantId] the [ObjectId] constructor accepts and the
    store answering, the booking succeeds whatever [amount] is, and stores
    [Number(amount)]: [NaN] when [amount] does not read as a number. *)
Theorem bookTicket_amount_unvalidated env st tks (body : object) oid :
  required_present body ->
  prop body "paymentType" = VString "PAID" ->
  ObjectId_new (prop body "applicantId") = inr oid ->
  tickets st = Some tks ->
  mongoFault env = None ->
  forall amount,
    exists t,
      ESM.post_bookTicket env st (<["amount" := amount]> body)
      = (res_json (JTicket t),
         {| applications := applications st; tickets := Some (tks ++ [t]) |})
      /\ Ticket.amount (fields t) = ToNumber amount
      /\ (ToNumber amount = NaN -> Ticket.amount (fields t) = NaN).
Proof.
  intros (Hid & Hsrc & Hdst & Hpay) Hpaid Hoid Htks Hok amount.
  unfold ESM.post_bookTicket, try_catch, member, insertOne.
  rewrite !prop_insert_ne, prop_insert_eq by done.
  rewrite Hid, Hsrc, Hdst, Hpay, Hoid, Htks, Hok, Hpaid. cbn.
  eexists. split; [reflexivity|]. cbn. split; [done|]. by intros ->.
Qed.

(** C10: the ES-module and the CommonJS copies of the server give, for
    every request, the same response and the same store. *)
Theorem esm_cjs_equivalent :
  (forall random, ESM.generateUniquePassId random = CJS.generateUniquePassId random)
  /\ (forall env st req, ESM.post_apply env st req = CJS.post_apply env st req)
  /\ (forall env st phone, ESM.get_verify env st phone = CJS.get_verify env st phone)
  /\ (forall env st id, ESM.get_applicant env st id = CJS.get_applicant env st id)
  /\ (forall env st passId,
       ESM.get_getApplicant env st passId = CJS.get_getApplicant env st passId)
  /\ (forall env st body, ESM.post_bookTicket env st body = CJS.post_bookTicket env st body).
Proof.
  split; [done|]. split; [|split; [|split; [|split; [|done]]]].
  - intros env st req. unfold ESM.post_apply, CJS.post_apply.
    by destruct (applications st).
  - intros env st phone. unfold ESM.get_verify, CJS.get_verify, findOne.
    destruct (applications st) as [apps|]; [|done].
    destruct (mongoFault env); [done|]. cbn.
    by destruct (list_find _ apps) as [[i d]|].
  - intros env st id. unfold ESM.get_applicant, CJS.get_applicant, findOne.
    destruct (applications st) as [apps|]; [|done].
    destruct (ObjectId_new _); [done|]. cbn.
    destruct (mongoFault env); [done|]. cbn.
    by destruct (list_find _ apps) as [[i d]|].
  - intros env st passId.
    unfold ESM.get_getApplicant, CJS.get_getApplicant,
      ESM.get_getApplicant_try, CJS.get_getApplicant_try, member, findOne.
    destruct (applications st) as [apps|]; [|done]. cbn.
    destruct (mongoFault env); [done|]. cbn.
    by destruct (list_find _ apps) as [[i d]|].
Qed.

End Handlers.

(** * The properties on sample requests *)

Section Samples.
#[local] Existing Instance Sample.host.

(** Contact fallback: submitting only [whatsapp] fills all three fields. *)
Example contact_fallback :
  (fun d => (Applicant.phone (fields d), Applicant.whatsapp (fields d),
             Applicant.number (fields d)))
    <$> Sample.after_apply Sample.only_whatsapp
  = [(VString "9999999999", VString "9999999999", VString "9999999999")].
Proof. vm_compute. reflexivity. Qed.

(** Ticket amount policy. *)
Example amount_free :
  Sample.stored_amount
    (ESM.post_bookTicket Sample.env Sample.empty (Sample.booking "FREE" (VString "500")))
  = Some (lit 0).
Proof. vm_compute. reflexivity. Qed.

Example amount_paid :
  Sample.stored_amount
    (ESM.post_bookTicket Sample.env Sample.empty (Sample.booking "PAID" (VString "500")))
  = Some (lit 500).
Proof. vm_compute. reflexivity. Qed.

(** The two ends of the identifier range: [Math.random()] returning [0]
    and returning [1 - 2^-53], the largest Number below [1]. *)
Example passId_smallest :
  ESM.generateUniquePassId (S754_zero false) = "TSRTC-10000000".
Proof. vm_compute. reflexivity. Qed.

Example passId_largest :
  ESM.generateUniquePassId (S754_finite false 9007199254740991 (- 53)) = "TSRTC-99999999".
Proof. vm_compute. reflexivity. Qed.

Lemma generateUniquePassId_format_witness :
  exists n, 10000000 <= n <= 99999999
    /\ passId_number "TSRTC" (ESM.generateUniquePassId (Math_random Sample.env)) = Some n
    /\ passId_number "TSRTC" (CJS.generateUniquePassId (Math_random Sample.env)) = Some n.
Proof.
  apply (generateUniquePassId_format (Math_random Sample.env)).
  vm_compute. reflexivity.
Defined.



Lemma bookTicket_amount_policy_witness :
  (exists t,
     ESM.post_bookTicket Sample.env Sample.empty (Sample.booking "FREE" (VString "500"))
     = (res_json (JTicket t), connectDB [] [t])
     /\ Ticket.amount (fields t) = lit 0)
  /\ (exists t,
        ESM.post_bookTicket Sample.env Sample.empty (Sample.booking "PAID" (VString "500"))
        = (res_json (JTicket t), connectDB [] [t])
        /\ Ticket.amount (fields t) = lit 500).
Proof.
  split.
  - destruct (proj2 (bookTicket_amount_policy Sample.env Sample.empty
                       (Sample.booking "FREE" (VString "500"))))
      with (oid := "65529d7e0000000000000001") (tks := @nil (stored Ticket.t))
      as (t & Hrun & _ & _ & [[Hpaid _]|[_ Hamount]]).
    + repeat split; reflexivity.
    + reflexivity.
    + reflexivity.
    + reflexivity.
    + discriminate Hpaid.
    + exists t. split; [exact Hrun | exact Hamount].
  - destruct (proj2 (bookTicket_amount_policy Sample.env Sample.empty
                       (Sample.booking "PAID" (VString "500"))))
      with (oid := "65529d7e0000000000000001") (tks := @nil (stored Ticket.t))
      as (t & Hrun & _ & _ & [[_ Hamount]|[Hfree _]]).
    + repeat split; reflexivity.
    + reflexivity.
    + reflexivity.
    + reflexivity.
    + exists t. split; [exact Hrun | exact Hamount].
    + destruct Hfree. reflexivity.
Defined.

Lemma verifyByPhone_lookup_witness :
  (* a store holding the record created with phone 111 *)
  (exists d, d ∈ Sample.after_apply Sample.phone_111 /\ holds_contact "111" d
     /\ ESM.get_verify Sample.env
          (connectDB (Sample.after_apply Sample.phone_111) []) "111"
        = (res_json (JVerified (_id d)),
           connectDB (Sample.after_apply Sample.phone_111) []))
  (* an empty store *)
  /\ ESM.get_verify Sample.env Sample.empty "111" = (unsuccessful, Sample.empty)
  (* create with phone 111, then verify 111 *)
  /\ (exists apps' d,
        applications (snd (ESM.post_apply Sample.env Sample.empty Sample.phone_111))
        = Some apps'
        /\ d ∈ apps' /\ holds_contact "111" d
        /\ ESM.get_verify Sample.env
             (snd (ESM.post_apply Sample.env Sample.empty Sample.phone_111)) "111"
           = (res_json (JVerified (_id d)),
              snd (ESM.post_apply Sample.env Sample.empty Sample.phone_111)))
  (* create with only number 222, then verify 222 *)
  /\ (exists apps' d,
        applications (snd (ESM.post_apply Sample.env Sample.empty Sample.only_number_222))
        = Some apps'
        /\ d ∈ apps' /\ holds_contact "222" d
        /\ ESM.get_verify Sample.env
             (snd (ESM.post_apply Sample.env Sample.empty Sample.only_number_222)) "222"
           = (res_json (JVerified (_id d)),
              snd (ESM.post_apply Sample.env Sample.empty Sample.only_number_222))).
Proof.
  destruct verifyByPhone_lookup as [Hfound Hcreated].
  split; [|split; [|split]].
  - apply (Hfound Sample.env (connectDB (Sample.after_apply Sample.phone_111) []));
      [reflexivity | reflexivity |].
    assert (exists d, head (Sample.after_apply Sample.phone_111) = Some d
                      /\ Applicant.phone (fields d) = VString "111")
      as (d & Hhead & Hphone) by (vm_compute; eexists; split; reflexivity).
    exists d. split; [by apply head_Some_elem_of | left; by left].
  - apply (Hfound Sample.env Sample.empty [] "111"); [reflexivity | reflexivity |].
    intros (d & Hin & _). apply elem_of_nil in Hin. destruct Hin.
  - apply (Hcreated Sample.env Sample.env Sample.empty Sample.phone_111
             (fst (ESM.post_apply Sample.env Sample.empty Sample.phone_111))).
    + vm_compute. reflexivity.
    + vm_compute. discriminate.
    + left. reflexivity.
    + discriminate.
    + reflexivity.
  - apply (Hcreated Sample.env Sample.env Sample.empty Sample.only_number_222
             (fst (ESM.post_apply Sample.env Sample.empty Sample.only_number_222))).
    + vm_compute. reflexivity.
    + vm_compute. discriminate.
    + right; right. reflexivity.
    + discriminate.
    + reflexivity.
Defined.

(** C4 does not hold as stated: a form that repeats the [phone] field is
    stored with the array of both values in all three contact fields; the
    record is then found by either value, although none of its phone,
    whatsapp and number is equal to it. *)
Lemma verifyByPhone_lookup_counterexample :
  (fun d => (Applicant.phone (fields d), Applicant.whatsapp (fields d),
             Applicant.number (fields d)))
    <$> Sample.after_apply Sample.two_phones
  = [(VArray [VString "111"; VString "222"], VArray [VString "111"; VString "222"],
      VArray [VString "111"; VString "222"])]
  /\ ESM.get_verify Sample.env (connectDB (Sample.after_apply Sample.two_phones) []) "111"
     = (res_json (JVerified "65529d7e0000000000000001"),
        connectDB (Sample.after_apply Sample.two_phones) [])
  /\ ~ (exists d, d ∈ Sample.after_apply Sample.two_phones /\ has_contact "111" d).
Proof.
  split; [vm_compute; reflexivity|]. split; [vm_compute; reflexivity|].
  assert (exists d, Sample.after_apply Sample.two_phones = [d]
                    /\ Applicant.phone (fields d) = VArray [VString "111"; VString "222"]
                    /\ Applicant.whatsapp (fields d) = VArray [VString "111"; VString "222"]
                    /\ Applicant.number (fields d) = VArray [VString "111"; VString "222"])
    as (d & -> & Hphone & Hwhatsapp & Hnumber)
    by (vm_compute; eexists; repeat split; reflexivity).
  intros (d' & Hin & Hd'). apply list_elem_of_singleton in Hin as ->.
  unfold has_contact in Hd'. rewrite Hphone, Hwhatsapp, Hnumber in Hd'.
  destruct Hd' as [Heq|[Heq|Heq]]; discriminate Heq.
Qed.

Lemma bookTicket_missing_fields_witness :
  missing_required Sample.booking_without_destination
  /\ ESM.post_bookTicket Sample.env Sample.empty Sample.booking_without_destination
     = (missing_fields, Sample.empty).
Proof.
  assert (missing_required Sample.booking_without_destination) as Hmiss
    by (right; right; left; reflexivity).
  split; [exact Hmiss|].
  exact (bookTicket_missing_fields Sample.env Sample.empty _ Hmiss).
Defined.

Lemma getApplicant_not_found_witness :
  ESM.get_getApplicant_try Sample.env Sample.empty "TSRTC-12345678"
  = inr (not_found, Sample.empty)
  /\ ESM.get_getApplicant Sample.env Sample.empty "TSRTC-12345678"
     = (not_found, Sample.empty)
  /\ status not_found = 404
  /\ forall env' st' passId' message,
       ESM.get_getApplicant_try env' st' passId' = inl message ->
       server_error (fst (ESM.get_getApplicant env' st' passId'))
       /\ fst (ESM.get_getApplicant env' st' passId') <> not_found.
Proof.
  apply (getApplicant_not_found Sample.env [] [] "TSRTC-12345678"); [reflexivity|].
  intros d Hin. by apply elem_of_nil in Hin.
Defined.

(** C7 does not hold as stated: the malformed id ["xyz"] is answered with
    the generic server error, status 500, the response a failing database
    call gets too; it is not a client error. *)
Lemma getById_malformed_id_counterexample :
  (exists message, ObjectId_new (VString "xyz") = inl message)
  /\ fst (ESM.get_applicant Sample.env Sample.empty "xyz") = generic_server_error
  /\ fst (ESM.get_applicant Sample.env_fault Sample.empty "65529d7e0000000000000001")
     = generic_server_error
  /\ server_error (fst (ESM.get_applicant Sample.env Sample.empty "xyz"))
  /\ ~ client_error (fst (ESM.get_applicant Sample.env Sample.empty "xyz")).
Proof.
  split; [by eexists|]. split; [reflexivity|]. split; [reflexivity|].
  unfold client_error, server_error. cbn. lia.
Qed.

Lemma getById_malformed_id_witness :
  ESM.get_applicant Sample.env Sample.empty "xyz" = (generic_server_error, Sample.empty)
  /\ ESM.get_applicant Sample.env_fault Sample.empty "65529d7e0000000000000001"
     = (generic_server_error, Sample.empty)
  /\ ESM.get_applicant Sample.env Sample.empty "65529d7e0000000000000001"
     = (unsuccessful, Sample.empty).
Proof.
  split; [|split].
  - eapply (proj1 (getById_malformed_id Sample.env [] [] "xyz")). reflexivity.
  - eapply (proj1 (proj2 (getById_malformed_id Sample.env_fault [] []
                            "65529d7e0000000000000001"))); reflexivity.
  - eapply (proj2 (proj2 (getById_malformed_id Sample.env [] []
                            "65529d7e0000000000000001"))); [reflexivity | reflexivity |].
    intros d Hin. by apply elem_of_nil in Hin.
Defined.

Lemma bookTicket_amount_unvalidated_witness :
  exists t,
    ESM.post_bookTicket Sample.env Sample.empty
      (<["amount" := VString "abc"]> (Sample.booking "PAID" VUndefined))
    = (res_json (JTicket t),
       {| applications := applications Sample.empty; tickets := Some ([] ++ [t]) |})
    /\ Ticket.amount (fields t) = ToNumber (VString "abc")
    /\ (ToNumber (VString "abc") = NaN -> Ticket.amount (fields t) = NaN).
Proof.
  apply (bookTicket_amount_unvalidated Sample.env Sample.empty []
           (Sample.booking "PAID" VUndefined) "65529d7e0000000000000001").
  - repeat split; reflexivity.
  - reflexivity.
  - reflexivity.
  - reflexivity.
  - reflexivity.
Defined.

(** The amount stored for the unreadable amount ["abc"] is [NaN]. *)
Example amount_not_a_number :
  Sample.stored_amount
    (ESM.post_bookTicket Sample.env Sample.empty (Sample.booking "PAID" (VString "abc")))
  = Some NaN.
Proof. vm_compute. reflexivity. Qed.

End Samples.

(** * Beyond the listed properties: lookups after writes, runs, start-up *)

Section Composition.
Context `{Host}.
Import Routes.

(** A successful [POST /apply], read backwards from its response. *)
Lemma post_apply_success env st req message id passId qrCode st' :
  ESM.post_apply env st req = (res_json (JApplied message id passId qrCode), st') ->
  exists apps d,
    applications st = Some apps
    /\ st' = {| applications := Some (apps ++ [d]); tickets := tickets st |}
    /\ issued d = (id, passId, qrCode)
    /\ passId = ESM.generateUniquePassId (Math_random env)
    /\ id = insertedId env.
Proof.
  unfold ESM.post_apply, try_catch, insertOne.
  destruct (applications st) as [apps|]; [|discriminate].
  destruct (QRCode_toDataURL _) as [?|qr]; [discriminate|]. cbn.
  destruct (upload_path _ "photo") as [?|photo]; [discriminate|]. cbn.
  destruct (upload_path _ "aadharFile") as [?|aadhar]; [discriminate|]. cbn.
  destruct (mongoFault env); [discriminate|]. cbn.
  intros [= <- <- <- <- <-]. by eexists apps, _.
Qed.

(** [findOne] on a collection that has just gained a matching record. *)
Lemma findOne_after_insert {D} env (c : collection D) (d : stored D) filter :
  mongoFault env = None -> filter d = true ->
  exists d', findOne env (c ++ [d]) filter = inr (Some d')
    /\ filter d' = true
    /\ d' ∈ c ++ [d]
    /\ ((forall d0, d0 ∈ c -> filter d0 = false) -> d' = d).
Proof.
  intros Hok Hd. unfold findOne. rewrite Hok.
  destruct (list_find (fun x => filter x = true) (c ++ [d])) as [[i d']|] eqn:Hfind.
  - exists d'. split; [done|].
    apply list_find_Some in Hfind as (Hi & Hd' & _).
    split; [done|]. split; [by eapply list_elem_of_lookup_2|].
    intros Hfresh. apply list_elem_of_lookup_2 in Hi.
    apply elem_of_app in Hi as [Hin|Hin].
    + rewrite (Hfresh d' Hin) in Hd'. discriminate.
    + by apply list_elem_of_singleton in Hin.
  - apply list_find_None in Hfind. rewrite Forall_forall in Hfind.
    destruct (Hfind d); [|done]. apply elem_of_app. right. by apply list_elem_of_singleton.
Qed.

(** X1: the pass id a successful application returns resolves through
    [GET /getApplicant]: the answer is 200 with a record carrying that
    pass id, and it is the record just stored (same id, same QR payload)
    unless an older record already had the pass id. *)
Theorem apply_then_getApplicant env env' st req message id passId qrCode st' :
  ESM.post_apply env st req = (res_json (JApplied message id passId qrCode), st') ->
  mongoFault env' = None ->
  exists d,
    ESM.get_getApplicant env' st' passId = (res_json (JRecord d), st')
    /\ Applicant.passId (fields d) = passId
    /\ ((forall apps d0, applications st = Some apps -> d0 ∈ apps ->
           Applicant.passId (fields d0) <> passId) ->
        issued d = (id, passId, qrCode)).
Proof.
  intros Hrun Hok.
  destruct (post_apply_success _ _ _ _ _ _ _ _ Hrun) as (apps & d & Hconn & -> & Hd & _ & _).
  assert (Applicant.passId (fields d) = passId) as Hpass by (by injection Hd).
  destruct (findOne_after_insert env' apps d
              (fun d => bool_decide (Applicant.passId (fields d) = passId)) Hok)
    as (d' & Hfind & Hd' & _ & Hfresh); [by apply bool_decide_eq_true|].
  exists d'. unfold ESM.get_getApplicant, ESM.get_getApplicant_try, member, try_catch.
  cbn. rewrite Hfind. cbn. split; [done|].
  apply bool_decide_eq_true in Hd'. split; [done|].
  intros Hnone. rewrite Hfresh; [done|].
  intros d0 Hin. apply bool_decide_eq_false. by apply (Hnone apps).
Qed.

(** X2: the id a successful application returns resolves through
    [GET /applicant]: when the [ObjectId] constructor reads the id back
    and no older record carries it, the answer is the record just stored. *)
Theorem apply_then_applicant env env' st req message id passId qrCode st' :
  ESM.post_apply env st req = (res_json (JApplied message id passId qrCode), st') ->
  ObjectId_new (VString id) = inr id ->
  mongoFault env' = None ->
  (forall apps d0, applications st = Some apps -> d0 ∈ apps -> _id d0 <> id) ->
  exists d,
    ESM.get_applicant env' st' id = (res_json (JApplicant d), st')
    /\ issued d = (id, passId, qrCode).
Proof.
  intros Hrun Hparse Hok Hnone.
  destruct (post_apply_success _ _ _ _ _ _ _ _ Hrun) as (apps & d & Hconn & -> & Hd & _ & _).
  assert (_id d = id) as Hid by (by injection Hd).
  destruct (findOne_after_insert env' apps d (fun d => bool_decide (_id d = id)) Hok)
    as (d' & Hfind & _ & _ & Hfresh); [by apply bool_decide_eq_true|].
  exists d. unfold ESM.get_applicant, try_catch. cbn. rewrite Hparse. cbn.
  rewrite Hfind. cbn. rewrite Hfresh; [done|].
  intros d0 Hin. apply bool_decide_eq_false. by apply (Hnone apps).
Qed.


(** X3: the two-step lookup a client makes, by phone and then by the id
    that came back: with distinct record ids and an [ObjectId] constructor
    that reads the id back, [GET /applicant] answers with a record that
    holds the queried number in its phone, whatsapp or number, as that
    string or as an element of an array. *)
Theorem verify_then_applicant env env' st apps q id :
  fst (ESM.get_verify env st q) = res_json (JVerified id) ->
  applications st = Some apps ->
  NoDup (_id <$> apps) ->
  ObjectId_new (VString id) = inr id ->
  mongoFault env' = None ->
  exists d,
    ESM.get_applicant env' st id = (res_json (JApplicant d), st)
    /\ d ∈ apps /\ _id d = id /\ holds_contact q d.
Proof.
  intros Hverify Hconn Hnodup Hparse Hok.
  unfold ESM.get_verify, try_catch, findOne in Hverify. rewrite Hconn in Hverify.
  destruct (mongoFault env); [discriminate|]. cbn in Hverify.
  destruct (list_find _ apps) as [[i d]|] eqn:Hfind; [|discriminate].
  cbn in Hverify. injection Hverify as Hid.
  apply list_find_Some in Hfind as (Hi & Hd & _).
  exists d. unfold ESM.get_applicant, try_catch, findOne.
  rewrite Hconn, Hparse, Hok. cbn.
  destruct (list_find _ apps) as [[j d']|] eqn:Hfind'.
  - apply list_find_Some in Hfind' as (Hj & Hd' & _).
    apply bool_decide_eq_true in Hd'.
    assert (i = j) as ->.
    { apply (NoDup_lookup (_id <$> apps) i j id); [done|..];
        rewrite list_lookup_fmap; [by rewrite Hi; cbn; rewrite Hid | by rewrite Hj; cbn; rewrite Hd']. }
    assert (d' = d) as -> by congruence. cbn.
    split; [done|]. split; [by eapply list_elem_of_lookup_2|]. split; [done|].
    by apply contact_filter.
  - apply list_find_None in Hfind'. rewrite Forall_forall in Hfind'.
    destruct (Hfind' d); [by eapply list_elem_of_lookup_2|]. by apply bool_decide_eq_true.
Qed.

(** X4: [POST /bookTicket] answers missing-fields exactly when one of the
    four required fields is falsy, an empty string or a zero as much as an
    absent property; it then stores nothing. *)
Theorem bookTicket_missing_iff env st (body : object) :
  ESM.post_bookTicket env st body = (missing_fields, st) <-> ~ required_present body.
Proof.
  unfold required_present, ESM.post_bookTicket, try_catch, member, insertOne.
  destruct (truthy (prop body "applicantId")), (truthy (prop body "source")),
    (truthy (prop body "destination")), (truthy (prop body "paymentType")); cbn;
    try (split; [intros _; intros (? & ? & ? & ?); discriminate | done]).
  split; [|intros Hno; by destruct Hno].
  destruct (ObjectId_new _); [discriminate|]. cbn.
  destruct (tickets st); [|discriminate]. cbn.
  destruct (mongoFault env); discriminate.
Qed.


(** X6: [POST /apply] never checks a pass id against the collection.
    When the collection already holds a record with the pass id being
    generated, and the QR encoder, the uploads and the insert go through,
    the application succeeds all the same and a second record with that
    pass id is stored. *)
Theorem apply_accepts_duplicate_passId env st apps d0 req qrCode photo aadharFile :
  applications st = Some apps ->
  d0 ∈ apps ->
  Applicant.passId (fields d0) = ESM.generateUniquePassId (Math_random env) ->
  QRCode_toDataURL (ESM.generateUniquePassId (Math_random env)) = inr qrCode ->
  upload_path (apply_files req) "photo" = inr photo ->
  upload_path (apply_files req) "aadharFile" = inr aadharFile ->
  mongoFault env = None ->
  exists d,
    ESM.post_apply env st req
    = (res_json (JApplied "✅ Application stored in MongoDB" (insertedId env)
                   (Applicant.passId (fields d0)) qrCode),
       {| applications := Some (apps ++ [d]); tickets := tickets st |})
    /\ Applicant.passId (fields d) = Applicant.passId (fields d0).
Proof.
  intros Hconn _ Hsame Hqr Hphoto Haadhar Hok.
  unfold ESM.post_apply, try_catch, insertOne.
  rewrite Hconn, Hqr. cbn. rewrite Hphoto. cbn. rewrite Haadhar. cbn. rewrite Hok. cbn.
  rewrite Hsame. eexists. split; reflexivity.
Qed.

(** X7: an [applicantId] the [ObjectId] constructor rejects makes
    [POST /bookTicket] answer 500 with the constructor's own message as
    [error], and nothing is stored. *)
Theorem bookTicket_malformed_applicantId env st (body : object) message :
  required_present body ->
  ObjectId_new (prop body "applicantId") = inl message ->
  ESM.post_bookTicket env st body = (res_status 500 (JFailure message), st).
Proof.
  intros (Hid & Hsrc & Hdst & Hpay) Hbad. unfold ESM.post_bookTicket, try_catch.
  by rewrite Hid, Hsrc, Hdst, Hpay, Hbad.
Qed.

(** X8: the statuses of the API.  Every response is 200, 404 or 500; 404
    comes only from [GET /getApplicant] and is its not-found response; 500
    goes with an error body and 200 never does.  So a missing record or a
    missing field on the other routes is a 200 whose body says
    [success: false]. *)
Theorem route_status env st r :
  (status (fst (route env st r)) = 200 /\ reports_error (json (fst (route env st r))) = false)
  \/ (fst (route env st r) = not_found /\ exists passId, r = GET_getApplicant passId)
  \/ (status (fst (route env st r)) = 500 /\ reports_error (json (fst (route env st r))) = true).
Proof.
  destruct r as [req|phone|id|passId|body]; cbn [route].
  - unfold ESM.post_apply, try_catch, insertOne.
    destruct (applications st); [|by right; right].
    destruct (QRCode_toDataURL _); [by right; right|]. cbn.
    destruct (upload_path _ "photo"); [by right; right|]. cbn.
    destruct (upload_path _ "aadharFile"); [by right; right|]. cbn.
    destruct (mongoFault env); [by right; right | by left].
  - unfold ESM.get_verify, try_catch, findOne.
    destruct (applications st) as [apps|]; [|by right; right].
    destruct (mongoFault env); [by right; right|]. cbn.
    destruct (list_find _ apps) as [[i d]|]; by left.
  - unfold ESM.get_applicant, try_catch, findOne.
    destruct (applications st) as [apps|]; [|by right; right].
    destruct (ObjectId_new _); [by right; right|]. cbn.
    destruct (mongoFault env); [by right; right|]. cbn.
    destruct (list_find _ apps) as [[i d]|]; by left.
  - unfold ESM.get_getApplicant, ESM.get_getApplicant_try, try_catch, member, findOne.
    destruct (applications st) as [apps|]; [|by right; right]. cbn.
    destruct (mongoFault env); [by right; right|]. cbn.
    destruct (list_find _ apps) as [[i d]|]; [by left|].
    right; left. split; [done | by exists passId].
  - unfold ESM.post_bookTicket, try_catch, member, insertOne.
    destruct (_ || _); [by left|].
    destruct (ObjectId_new _); [by right; right|]. cbn.
    destruct (tickets st); [|by right; right]. cbn.
    destruct (mongoFault env); [by right; right | by left].
Qed.

(** X9: before [connectDB] has assigned the handles every route answers
    500 and the handles stay unassigned.  The three guarded routes say so
    themselves, [/applicant] before it even parses the id; the two
    unguarded ones answer with the engine's TypeError, [/bookTicket] only
    once the fields and the id have passed. *)
Theorem before_connectDB env :
  (forall req, ESM.post_apply env Boot.boot req
               = (res_status 500 (JError "DB not connected yet"), Boot.boot))
  /\ (forall phone, ESM.get_verify env Boot.boot phone
                    = (res_status 500 (JFailure "DB not connected"), Boot.boot))
  /\ (forall id, ESM.get_applicant env Boot.boot id
                 = (res_status 500 (JFailure "DB not connected"), Boot.boot))
  /\ (forall passId, ESM.get_getApplicant env Boot.boot passId
                     = (res_status 500 (JFailure (TypeError_undefined "findOne")), Boot.boot))
  /\ (forall (body : object) oid,
        required_present body -> ObjectId_new (prop body "applicantId") = inr oid ->
        ESM.post_bookTicket env Boot.boot body
        = (res_status 500 (JFailure (TypeError_undefined "insertOne")), Boot.boot)).
Proof.
  split; [done|]. split; [done|]. split; [done|]. split; [done|].
  intros body oid (Hid & Hsrc & Hdst & Hpay) Hoid.
  unfold ESM.post_bookTicket, try_catch, member.
  by rewrite Hid, Hsrc, Hdst, Hpay, Hoid.
Qed.

End Composition.

Section Runs.
Context `{Host}.
Import Routes.

(** One request: what it appends to each collection is what its response
    reports. *)
Lemma route_effect env st r :
  exists new_apps,
    applications (snd (route env st r)) = (fun c => c ++ new_apps) <$> applications st
    /\ issued <$> new_apps = applications_reported [fst (route env st r)]
    /\ tickets (snd (route env st r))
       = (fun c => c ++ tickets_reported [fst (route env st r)]) <$> tickets st.
Proof.
  assert (forall {D} (o : option (collection D)), o = (fun c => c ++ []) <$> o) as Hsame.
  { intros D [c|]; cbn; [by rewrite app_nil_r | done]. }
  destruct r as [req|phone|id|passId|body]; cbn [route].
  - unfold ESM.post_apply, try_catch, insertOne.
    destruct (applications st) as [apps|] eqn:Hst; [|exists []; cbn; rewrite Hst; eauto].
    destruct (QRCode_toDataURL _); [exists []; cbn; rewrite Hst, app_nil_r; eauto|]. cbn.
    destruct (upload_path _ "photo"); [exists []; cbn; rewrite Hst, app_nil_r; eauto|]. cbn.
    destruct (upload_path _ "aadharFile");
      [exists []; cbn; rewrite Hst, app_nil_r; eauto|]. cbn.
    destruct (mongoFault env); [exists []; cbn; rewrite Hst, app_nil_r; eauto|]. cbn.
    eexists [_]. cbn. eauto.
  - exists []. unfold ESM.get_verify, try_catch, findOne.
    destruct (applications st) as [apps|] eqn:Hst; [|cbn; rewrite Hst; eauto].
    destruct (mongoFault env); cbn; [rewrite Hst, app_nil_r; eauto|].
    destruct (list_find _ apps) as [[i d]|]; cbn; rewrite Hst, app_nil_r; eauto.
  - exists []. unfold ESM.get_applicant, try_catch, findOne.
    destruct (applications st) as [apps|] eqn:Hst; [|cbn; rewrite Hst; eauto].
    destruct (ObjectId_new _); cbn; [rewrite Hst, app_nil_r; eauto|].
    destruct (mongoFault env); cbn; [rewrite Hst, app_nil_r; eauto|].
    destruct (list_find _ apps) as [[i d]|]; cbn; rewrite Hst, app_nil_r; eauto.
  - exists []. unfold ESM.get_getApplicant, ESM.get_getApplicant_try, try_catch, member, findOne.
    destruct (applications st) as [apps|] eqn:Hst; cbn; [|rewrite Hst; eauto].
    destruct (mongoFault env); cbn; [rewrite Hst, app_nil_r; eauto|].
    destruct (list_find _ apps) as [[i d]|]; cbn; rewrite Hst, app_nil_r; eauto.
  - exists []. unfold ESM.post_bookTicket, try_catch, member, insertOne.
    destruct (_ || _); [cbn; eauto|].
    destruct (ObjectId_new _); cbn; [eauto|].
    destruct (tickets st) as [tks|] eqn:Hst; cbn; [|rewrite Hst; eauto].
    destruct (mongoFault env); cbn; [rewrite Hst; eauto|]. eauto.
Qed.


(** A run of requests: the process stays up, every request is answered,
    and what the collections gain is what the responses report. *)
Lemma run_effect es : forall st,
  requests_only es ->
  exists st' new_apps,
    snd (run (Some st) es) = Some st'
    /\ length (fst (run (Some st) es)) = length es
    /\ applications st' = (fun c => c ++ new_apps) <$> applications st
    /\ issued <$> new_apps = applications_reported (fst (run (Some st) es))
    /\ tickets st'
       = (fun c => c ++ tickets_reported (fst (run (Some st) es))) <$> tickets st.
Proof.
  induction es as [|e es IH]; intros st Honly.
  - exists st, []. cbn. split; [done|]. split; [done|].
    destruct (applications st), (tickets st); cbn; by rewrite ?app_nil_r.
  - apply Forall_cons in Honly as [(env & r & ->) Honly].
    destruct (route_effect env st r) as (new1 & Happs1 & Hrep1 & Htks1).
    cbn [run step]. destruct (route env st r) as [resp st1]. cbn [fst snd] in *.
    destruct (IH st1 Honly) as (st' & new2 & Hfinal & Hlen & Happs2 & Hrep2 & Htks2).
    destruct (run (Some st1) es) as [resps final]. cbn [fst snd from_option] in *.
    exists st', (new1 ++ new2). split; [done|]. split; [cbn; by rewrite Hlen|].
    split; [|split].
    + rewrite Happs2, Happs1. destruct (applications st); cbn; by rewrite ?app_assoc.
    + rewrite fmap_app, Hrep1, Hrep2. unfold applications_reported.
      by rewrite <- omap_app.
    + rewrite Htks2, Htks1. unfold tickets_reported.
      change ([resp] ++ resps) with (resp :: resps).
      destruct (tickets st); cbn; [|done].
      rewrite <- app_assoc. do 2 f_equal.
      by destruct (json resp).
Qed.

(** X10: the stored records are never changed or removed.  Over any
    sequence of requests each collection keeps what it held, in place, and
    may only gain records at the end; no request stops the process, and
    each gets its response. *)
Theorem run_append_only st es :
  requests_only es ->
  exists st',
    snd (run (Some st) es) = Some st'
    /\ length (fst (run (Some st) es)) = length es
    /\ grows (applications st) (applications st')
    /\ grows (tickets st) (tickets st').
Proof.
  intros Honly.
  destruct (run_effect es st Honly) as (st' & new_apps & Hfinal & Hlen & Happs & _ & Htks).
  exists st'. split; [done|]. split; [done|]. rewrite Happs, Htks. unfold grows.
  split; [destruct (applications st) | destruct (tickets st)]; cbn;
    try done; by apply prefix_app_r.
Qed.

(** X11: what is stored is what was reported.  Over any sequence of
    requests the tickets collection gains exactly the tickets returned in
    the [success: true] booking responses, in order; and the applications
    collection gains one record per [success: true] application response,
    in order, with the id, pass id and QR payload that response carried. *)
Theorem run_records_match_responses st es :
  requests_only es ->
  exists st' new_apps,
    snd (run (Some st) es) = Some st'
    /\ applications st' = (fun c => c ++ new_apps) <$> applications st
    /\ issued <$> new_apps = applications_reported (fst (run (Some st) es))
    /\ tickets st'
       = (fun c => c ++ tickets_reported (fst (run (Some st) es))) <$> tickets st.
Proof.
  intros Honly.
  destruct (run_effect es st Honly) as (st' & new_apps & Hfinal & _ & Happs & Hrep & Htks).
  by exists st', new_apps.
Qed.

Lemma run_exited es : run None es = ([], None).
Proof. induction es as [|e es IH]; [done|]. cbn [run step]. by rewrite IH. Qed.

(** The two handles are assigned together. *)
Lemma run_handles es : forall st,
  (applications st = None <-> tickets st = None) ->
  forall st', snd (run (Some st) es) = Some st' ->
  (applications st' = None <-> tickets st' = None).
Proof.
  induction es as [|e es IH]; intros st Hboth st' Hfinal.
  - cbn in Hfinal. by injection Hfinal as <-.
  - cbn [run step] in Hfinal. destruct e as [[message|[apps tks]]|env r].
    + cbn in Hfinal. rewrite run_exited in Hfinal. discriminate.
    + cbn [Boot.connectDB_outcome] in Hfinal.
      destruct (run (Some (connectDB apps tks)) es) as [resps final] eqn:Hrun.
      apply (IH (connectDB apps tks)); [done|]. by rewrite Hrun.
    + destruct (route_effect env st r) as (new & Happs & _ & Htks).
      destruct (route env st r) as [resp st1]. cbn [fst snd] in *.
      destruct (run (Some st1) es) as [resps final] eqn:Hrun.
      apply (IH st1); [|by rewrite Hrun].
      rewrite Happs, Htks. clear IH.
      destruct (applications st), (tickets st); cbn in *; intuition congruence.
Qed.

Lemma run_exit_iff es : forall st,
  snd (run (Some st) es) = None <-> exists message, DbSettled (inl message) ∈ es.
Proof.
  induction es as [|e es IH]; intros st.
  - cbn. split; [discriminate | intros (m & Hin); by apply elem_of_nil in Hin].
  - cbn [run step]. destruct e as [[message|[apps tks]]|env r].
    + cbn. rewrite run_exited. cbn. split; [|done]. intros _. exists message. left.
    + cbn [Boot.connectDB_outcome].
      destruct (run (Some (connectDB apps tks)) es) as [resps final] eqn:Hrun. cbn.
      specialize (IH (connectDB apps tks)). rewrite Hrun in IH. cbn in IH. rewrite IH.
      split; [intros (m & Hin); exists m; by right|].
      intros (m & Hin). exists m. by apply elem_of_cons in Hin as [[=]|Hin].
    + destruct (route env st r) as [resp st1].
      destruct (run (Some st1) es) as [resps final] eqn:Hrun. cbn.
      specialize (IH st1). rewrite Hrun in IH. cbn in IH. rewrite IH.
      split; [intros (m & Hin); exists m; by right|].
      intros (m & Hin). exists m. by apply elem_of_cons in Hin as [[=]|Hin].
Qed.

(** X12: the life of the process, from start-up on.  It exits exactly
    when [connectDB] fails, never because of a request, and nothing is
    answered after that; while it runs, the two collection handles are
    either both unassigned or both assigned. *)
Theorem process_lifecycle es :
  (snd (run (Some Boot.boot) es) = None <-> exists message, DbSettled (inl message) ∈ es)
  /\ (forall st, snd (run (Some Boot.boot) es) = Some st ->
       (applications st = None <-> tickets st = None))
  /\ (forall before message after,
       es = before ++ DbSettled (inl message) :: after ->
       fst (run (Some Boot.boot) es) = fst (run (Some Boot.boot) before)).
Proof.
  split; [apply run_exit_iff|]. split; [by apply run_handles|].
  intros before message after ->. generalize Boot.boot.
  induction before as [|e before IH]; intros st.
  - cbn. by rewrite run_exited.
  - cbn [app run]. destruct (step (Some st) e) as [resp [st1|]].
    + specialize (IH st1).
      destruct (run (Some st1) (before ++ _)) as [resps final].
      destruct (run (Some st1) before) as [resps' final']. cbn in *. by rewrite IH.
    + by rewrite !run_exited.
Qed.

End Runs.

Section StartUp.
Import Boot.

(** X13: where the two copies part at start-up.  The ES-module copy exits
    when [MONGO_URI] is unset or empty, the CommonJS copy then connects to
    the local default; whenever the ES-module copy starts, both use the
    same URI and the same port, but only the ES-module copy asks for TLS
    and a 5 s server-selection timeout. *)
Theorem config_of_the_two_copies (e : environ) :
  (ESM_config e = None <-> e !! "MONGO_URI" = None \/ e !! "MONGO_URI" = Some "")
  /\ (ESM_config e = None -> uri (CJS_config e) = VString "mongodb://127.0.0.1:27017")
  /\ (forall c, ESM_config e = Some c ->
        uri (CJS_config e) = uri c
        /\ PORT (CJS_config e) = PORT c
        /\ (exists s, e !! "MONGO_URI" = Some s /\ s <> "" /\ uri c = VString s)
        /\ options c = Some {| serverSelectionTimeoutMS := 5000; tls := true |}
        /\ options (CJS_config e) = None).
Proof.
  unfold ESM_config, CJS_config, getenv, or_else.
  destruct (e !! "MONGO_URI") as [s|]; cbn.
  - destruct (decide (s = "")) as [->|Hne].
    + cbn. split; [split; [by right | done]|]. split; [done | discriminate].
    + rewrite bool_decide_eq_false_2 by done. cbn.
      split; [split; [discriminate | by intros [|[=]]]|]. split; [discriminate|].
      intros c [= <-]. cbn. split; [done|]. split; [done|]. split; [by exists s | done].
  - split; [split; [by left | done]|]. split; [done | discriminate].
Qed.

End StartUp.

Section Uploads.
Context `{Host}.
Import NumberFacts Upload.

(** An integer timestamp prints as its decimal digits. *)
Lemma lit_toString z : 0 <= z < 2 ^ 53 -> Number_toString (lit z) = decimal z.
Proof.
  intros Hz. destruct z as [|pz|pz]; [done| |lia].
  assert (2 ^ 53 < 10 ^ 21) as Hbig by (vm_compute; reflexivity).
  assert (0 < 2 ^ scale) as Hs by (apply Z.pow_pos_nonneg; unfold scale; lia).
  unfold lit. cbn [binary_normalize].
  pose proof (binary_round_bounds pz 0) as Hround. cbv zeta in Hround.
  set (f := fexp prec emax (Zpos (digits2_pos pz) + 0)) in *.
  assert (- 1074 <= f <= 0) as Hf.
  { assert (Zpos (digits2_pos pz) <= 53) by (apply digits_le; lia).
    unfold f. rewrite fexp_eq. lia. }
  destruct Hround as (q & Hden & Hlo & Hhi); [lia | unfold scale; lia |].
  assert (0 < 2 ^ (f + scale)) as HTf by (apply Z.pow_pos_nonneg; unfold scale; lia).
  assert (2 ^ (0 + scale) = 2 ^ (- f) * 2 ^ (f + scale)) as Hsf
    by (rewrite <- Z.pow_add_r by (unfold scale; lia); f_equal; lia).
  assert (q = Zpos pz * 2 ^ (- f)) as ->.
  { apply Z.le_antisymm.
    - apply Hhi. rewrite Hsf. lia.
    - apply Hlo. rewrite Hsf. lia. }
  rewrite <- Z.mul_assoc, <- Hsf, Z.add_0_l in Hden.
  destruct (binary_round prec emax false pz 0) as [[]| | |[] m' e'];
    try (exfalso; exact Hden).
  { cbn [denotes] in Hden. lia. }
  destruct Hden as [He' Hm']. unfold Number_toString.
  rewrite (integer_value_denotes m' e' (Zpos pz)) by done.
  by rewrite (proj2 (Z.ltb_lt (Zpos pz) (10 ^ 21))) by lia.
Qed.

Lemma string_length_app s t :
  String.length (s +:+ t) = (String.length s + String.length t)%nat.
Proof.
  induction s as [|c s IH]; [done|].
  change (String c s +:+ t) with (String c (s +:+ t)). cbn [String.length]. by rewrite IH.
Qed.

Lemma string_app_assoc s t u : (s +:+ t) +:+ u = s +:+ (t +:+ u).
Proof.
  induction s as [|c s IH]; [done|].
  change (String c s +:+ t) with (String c (s +:+ t)).
  change (String c (s +:+ t) +:+ u) with (String c ((s +:+ t) +:+ u)).
  by rewrite IH.
Qed.

Lemma digits_value_app ds : forall a v s,
  digits_value a ds = Some v -> digits_value a (ds +:+ s) = digits_value v s.
Proof.
  induction ds as [|c ds IH]; intros a v s.
  - cbn. by intros [= ->].
  - change (String c ds +:+ s) with (String c (ds +:+ s)). cbn [digits_value].
    destruct (is_digit c); [apply IH | discriminate].
Qed.

Lemma leading_digits_stop ds : forall a v rest,
  digits_value a ds = Some v ->
  leading_digits (ds +:+ String "-" rest) = (ds, String "-" rest).
Proof.
  induction ds as [|c ds IH]; intros a v rest.
  - done.
  - change (String c ds +:+ String "-" rest) with (String c (ds +:+ String "-" rest)).
    cbn [digits_value leading_digits].
    destruct (is_digit c); [|discriminate]. intros Hv. by rewrite (IH _ _ _ Hv).
Qed.

(** The digits [decimal_go] puts in front of its accumulator. *)
Lemma decimal_go_digits fuel : forall n acc,
  0 <= n < 10 ^ Z.of_nat (S fuel) ->
  exists ds,
    decimal_go (S fuel) n acc = ds +:+ acc
    /\ ds <> ""
    /\ forall a, digits_value a ds = Some (a * 10 ^ Z.of_nat (String.length ds) + n).
Proof.
  induction fuel as [|fuel IH]; intros n acc Hn;
    rewrite Nat2Z.inj_succ, Z.pow_succ_r in Hn by lia;
    destruct (digit_char_spec (n mod 10)) as [Hdigit Hvalue];
    try (Z.div_mod_to_equations; lia);
    destruct (Z.ltb_spec n 10) as [Hsmall|Hlarge]; try (cbn in Hn; lia).
  1, 2: rewrite decimal_go_last by done;
    exists (String (digit_char (n mod 10)) ""); split; [done|]; split; [done|];
    intros a; cbn; rewrite Hdigit, Hvalue; f_equal; rewrite Z.mod_small by lia; lia.
  rewrite decimal_go_step by done.
  assert (0 <= n / 10 < 10 ^ Z.of_nat (S fuel)) as Hdiv.
  { split; [apply Z.div_pos; lia | apply Z.div_lt_upper_bound; lia]. }
  destruct (IH (n / 10) (String (digit_char (n mod 10)) acc) Hdiv)
    as (ds & Hgo & Hne & Hval).
  exists (ds +:+ String (digit_char (n mod 10)) ""). split; [|split].
  - by rewrite Hgo, string_app_assoc.
  - by destruct ds.
  - intros a. rewrite (digits_value_app ds a _ _ (Hval a)). cbn.
    rewrite Hdigit, Hvalue, string_length_app. cbn [String.length]. f_equal.
    rewrite Nat2Z.inj_add, Z.pow_add_r by lia. change (10 ^ Z.of_nat 1) with 10.
    Z.div_mod_to_equations. lia.
Qed.

(** A stored name reads back as the upload time and the original name. *)
Lemma parse_storage_filename now name :
  0 <= now < 2 ^ 53 ->
  parse_filename (storage_filename now name) = Some (now, name).
Proof.
  intros Hnow. unfold storage_filename. rewrite lit_toString by done. unfold decimal.
  destruct (decimal_go_digits (Z.to_nat (Z.log2 now)) now "") as (ds & Hgo & Hne & Hval).
  { split; [lia|]. destruct (Z.eq_dec now 0) as [->|Hpos]; [done|].
    eapply Z.lt_le_trans; [apply (Z.log2_spec now); lia|].
    rewrite Nat2Z.inj_succ, Z2Nat.id by apply Z.log2_nonneg.
    apply Z.pow_le_mono_l. lia. }
  rewrite Hgo.
  assert (ds +:+ "" = ds) as ->.
  { clear. induction ds as [|c ds IH]; [done|].
    change (String c ds +:+ "") with (String c (ds +:+ "")). by rewrite IH. }
  unfold parse_filename.
  change ("-" +:+ name) with (String "-" name).
  rewrite (leading_digits_stop ds 0 _ name (Hval 0)).
  destruct ds as [|c ds]; [done|]. rewrite (Hval 0). cbn. by do 2 f_equal.
Qed.

(** X14: the names multer stores uploads under.  A stored name reads
    back as the upload time and the original name, so two uploads get the
    same stored name, and the later one replaces the earlier file, exactly
    when they carry the same original name in the same millisecond. *)
Theorem storage_filename_collision now now' name name' :
  0 <= now < 2 ^ 53 -> 0 <= now' < 2 ^ 53 ->
  parse_filename (storage_filename now name) = Some (now, name)
  /\ (storage_filename now name = storage_filename now' name'
      <-> now = now' /\ name = name').
Proof.
  intros Hnow Hnow'. split; [by apply parse_storage_filename|].
  split; [|by intros [-> ->]].
  intros Heq. pose proof (parse_storage_filename now name Hnow) as Hparse.
  rewrite Heq, parse_storage_filename in Hparse by done. by injection Hparse.
Qed.

(** The upload paths of the record a successful application stores. *)
Lemma post_apply_uploads env st req message id passId qrCode st' :
  ESM.post_apply env st req = (res_json (JApplied message id passId qrCode), st') ->
  exists apps d,
    applications st = Some apps
    /\ applications st' = Some (apps ++ [d])
    /\ upload_path (apply_files req) "photo" = inr (Applicant.photo (fields d))
    /\ upload_path (apply_files req) "aadharFile" = inr (Applicant.aadharFile (fields d)).
Proof.
  unfold ESM.post_apply, try_catch, insertOne.
  destruct (applications st) as [apps|]; [|discriminate].
  destruct (QRCode_toDataURL _) as [?|qr]; [discriminate|]. cbn.
  destruct (upload_path _ "photo") as [?|photo]; [discriminate|]. cbn.
  destruct (upload_path _ "aadharFile") as [?|aadhar]; [discriminate|]. cbn.
  destruct (mongoFault env); [discriminate|]. cbn.
  intros [= <- <- <- <- <-]. by eexists apps, _.
Qed.

Lemma upload_path_empty files field path :
  upload_path files field = inr path ->
  (path = "" <-> files ≫= (fun fs => fs !! field) = None)
  /\ forall f rest, files ≫= (fun fs => fs !! field) = Some (f :: rest) ->
       path = "/uploads/" +:+ filename f.
Proof.
  unfold upload_path. destruct (files ≫= _) as [[|f rest]|]; [discriminate| |].
  - intros [= <-]. split; [split; discriminate|]. by intros f' rest' [= <- <-].
  - intros [= <-]. split; [done | discriminate].
Qed.

(** X15: the [photo] and [aadharFile] of a stored record.  Each is the
    empty string exactly when the request carried no such upload, and
    otherwise the path [/uploads/] followed by the stored name of the first
    file of that field; for a file stored by multer, its upload time, a
    hyphen and its original name. *)
Theorem apply_upload_paths env st req message id passId qrCode st' :
  ESM.post_apply env st req = (res_json (JApplied message id passId qrCode), st') ->
  exists apps d,
    applications st = Some apps /\ applications st' = Some (apps ++ [d])
    /\ (Applicant.photo (fields d) = ""
        <-> apply_files req ≫= (fun fs => fs !! "photo") = None)
    /\ (Applicant.aadharFile (fields d) = ""
        <-> apply_files req ≫= (fun fs => fs !! "aadharFile") = None)
    /\ (forall now name rest,
          0 <= now < 2 ^ 53 ->
          apply_files req ≫= (fun fs => fs !! "photo") = Some (stored_file now name :: rest) ->
          Applicant.photo (fields d) = "/uploads/" +:+ decimal now +:+ "-" +:+ name)
    /\ (forall now name rest,
          0 <= now < 2 ^ 53 ->
          apply_files req ≫= (fun fs => fs !! "aadharFile")
          = Some (stored_file now name :: rest) ->
          Applicant.aadharFile (fields d) = "/uploads/" +:+ decimal now +:+ "-" +:+ name).
Proof.
  intros Hrun.
  destruct (post_apply_uploads _ _ _ _ _ _ _ _ Hrun)
    as (apps & d & Hconn & Hafter & Hphoto & Haadhar).
  destruct (upload_path_empty _ _ _ Hphoto) as [Hp1 Hp2].
  destruct (upload_path_empty _ _ _ Haadhar) as [Ha1 Ha2].
  exists apps, d. split; [done|]. split; [done|]. split; [done|]. split; [done|].
  split; intros now name rest Hnow Hfile.
  - rewrite (Hp2 _ _ Hfile). cbn [stored_file filename]. unfold storage_filename.
    by rewrite lit_toString.
  - rewrite (Ha2 _ _ Hfile). cbn [stored_file filename]. unfold storage_filename.
    by rewrite lit_toString.
Qed.

End Uploads.

(** * The further properties on sample runs *)

Section SampleRuns.
#[local] Existing Instance Sample.host.
Import Routes.

Lemma applied_as_expected :
  Scenario.applied = (Scenario.applied_response, snd Scenario.applied).
Proof. vm_compute. reflexivity. Qed.

Lemma apply_then_getApplicant_witness :
  exists d,
    ESM.get_getApplicant Sample.env (snd Scenario.applied) Scenario.issued_passId
    = (res_json (JRecord d), snd Scenario.applied)
    /\ issued d = (Scenario.issued_id, Scenario.issued_passId, Scenario.issued_qrCode).
Proof.
  destruct (apply_then_getApplicant Sample.env Sample.env Sample.empty Sample.phone_111
              _ _ _ _ _ applied_as_expected eq_refl) as (d & Hget & _ & Hfresh).
  exists d. split; [exact Hget|]. apply Hfresh.
  intros apps d0 [= <-] Hin. apply elem_of_nil in Hin. destruct Hin.
Defined.

Lemma apply_then_applicant_witness :
  exists d,
    ESM.get_applicant Sample.env (snd Scenario.applied) Scenario.issued_id
    = (res_json (JApplicant d), snd Scenario.applied)
    /\ issued d = (Scenario.issued_id, Scenario.issued_passId, Scenario.issued_qrCode).
Proof.
  apply (apply_then_applicant Sample.env Sample.env Sample.empty Sample.phone_111
           _ _ _ _ _ applied_as_expected eq_refl eq_refl).
  intros apps d0 [= <-] Hin. apply elem_of_nil in Hin. destruct Hin.
Defined.

Lemma verify_then_applicant_witness :
  exists d,
    ESM.get_applicant Sample.env (snd Scenario.applied) Scenario.issued_id
    = (res_json (JApplicant d), snd Scenario.applied)
    /\ d ∈ Sample.after_apply Sample.phone_111
    /\ _id d = Scenario.issued_id /\ holds_contact "111" d.
Proof.
  apply (verify_then_applicant Sample.env Sample.env (snd Scenario.applied)
           (Sample.after_apply Sample.phone_111) "111" Scenario.issued_id).
  - vm_compute. reflexivity.
  - vm_compute. reflexivity.
  - assert (_id <$> Sample.after_apply Sample.phone_111 = [Scenario.issued_id]) as ->
      by (vm_compute; reflexivity).
    apply NoDup_singleton.
  - reflexivity.
  - reflexivity.
Defined.


Lemma apply_accepts_duplicate_passId_witness :
  exists d0 d,
    d0 ∈ Sample.after_apply Sample.phone_111
    /\ ESM.post_apply Sample.env (snd Scenario.applied) Sample.only_number_222
       = (res_json (JApplied "✅ Application stored in MongoDB" Scenario.issued_id
                      (Applicant.passId (fields d0)) Scenario.issued_qrCode),
          {| applications := Some (Sample.after_apply Sample.phone_111 ++ [d]);
             tickets := tickets (snd Scenario.applied) |})
    /\ Applicant.passId (fields d) = Applicant.passId (fields d0).
Proof.
  assert (exists d0, head (Sample.after_apply Sample.phone_111) = Some d0
                     /\ Applicant.passId (fields d0) = Scenario.issued_passId)
    as (d0 & Hhead & Hpass) by (vm_compute; eexists; split; reflexivity).
  apply head_Some_elem_of in Hhead.
  destruct (apply_accepts_duplicate_passId Sample.env (snd Scenario.applied)
              (Sample.after_apply Sample.phone_111) d0 Sample.only_number_222
              Scenario.issued_qrCode "" "") as (d & Hrun & Hsame).
  - vm_compute. reflexivity.
  - exact Hhead.
  - rewrite Hpass. vm_compute. reflexivity.
  - vm_compute. reflexivity.
  - reflexivity.
  - reflexivity.
  - reflexivity.
  - exists d0, d. split; [exact Hhead|]. split; [exact Hrun | exact Hsame].
Defined.

Lemma bookTicket_malformed_applicantId_witness :
  ESM.post_bookTicket Sample.env Sample.empty Scenario.booking_bad_id
  = (res_status 500
       (JFailure "input must be a 24 character hex string, 12 byte Uint8Array, or an integer"),
     Sample.empty).
Proof.
  apply (bookTicket_malformed_applicantId Sample.env Sample.empty Scenario.booking_bad_id).
  - repeat split; reflexivity.
  - reflexivity.
Defined.

Lemma session_requests_only : requests_only Scenario.session.
Proof. repeat constructor; eauto. Qed.

Lemma run_append_only_witness :
  exists st',
    snd (run (Some Sample.empty) Scenario.session) = Some st'
    /\ length (fst (run (Some Sample.empty) Scenario.session)) = length Scenario.session
    /\ grows (applications Sample.empty) (applications st')
    /\ grows (tickets Sample.empty) (tickets st').
Proof. exact (run_append_only Sample.empty Scenario.session session_requests_only). Defined.

Lemma run_records_match_responses_witness :
  exists st' new_apps,
    snd (run (Some Sample.empty) Scenario.session) = Some st'
    /\ applications st' = (fun c => c ++ new_apps) <$> applications Sample.empty
    /\ issued <$> new_apps
       = applications_reported (fst (run (Some Sample.empty) Scenario.session))
    /\ tickets st'
       = (fun c => c ++ tickets_reported (fst (run (Some Sample.empty) Scenario.session)))
         <$> tickets Sample.empty.
Proof.
  exact (run_records_match_responses Sample.empty Scenario.session session_requests_only).
Defined.

(** The sample session stores one application and one ticket. *)
Example session_outcome :
  (status <$> fst (run (Some Sample.empty) Scenario.session),
   applications_reported (fst (run (Some Sample.empty) Scenario.session)),
   length (tickets_reported (fst (run (Some Sample.empty) Scenario.session))))
  = ([200; 200; 200],
     [(Scenario.issued_id, Scenario.issued_passId, Scenario.issued_qrCode)], 1%nat).
Proof. vm_compute. reflexivity. Qed.

Lemma storage_filename_collision_witness :
  Upload.parse_filename (Upload.storage_filename 1700000000000 "me.png")
  = Some (1700000000000, "me.png")
  /\ (Upload.storage_filename 1700000000000 "me.png"
      = Upload.storage_filename 1700000000001 "me.png"
      <-> 1700000000000 = 1700000000001 /\ "me.png" = "me.png").
Proof.
  apply (storage_filename_collision 1700000000000 1700000000001 "me.png" "me.png").
  - split; [lia|]. change (2 ^ 53) with 9007199254740992. lia.
  - split; [lia|]. change (2 ^ 53) with 9007199254740992. lia.
Defined.

Example storage_filename_sample :
  Upload.storage_filename 1700000000000 "me.png" = "1700000000000-me.png".
Proof. vm_compute. reflexivity. Qed.

Lemma apply_upload_paths_witness :
  exists d,
    applications (snd (ESM.post_apply Sample.env Sample.empty Scenario.with_photo))
    = Some ([] ++ [d])
    /\ Applicant.photo (fields d) = "/uploads/1700000000000-me.png"
    /\ Applicant.aadharFile (fields d) = "".
Proof.
  destruct (apply_upload_paths Sample.env Sample.empty Scenario.with_photo
              "✅ Application stored in MongoDB" Scenario.issued_id Scenario.issued_passId
              Scenario.issued_qrCode
              (snd (ESM.post_apply Sample.env Sample.empty Scenario.with_photo)))
    as (apps & d & Hconn & Hafter & _ & Haadhar & Hphoto & _).
  - vm_compute. reflexivity.
  - injection Hconn as <-. exists d. split; [exact Hafter|]. split.
    + rewrite (Hphoto 1700000000000 "me.png" []); [vm_compute; reflexivity| |reflexivity].
      split; [lia|]. change (2 ^ 53) with 9007199254740992. lia.
    + apply Haadhar. reflexivity.
Defined.

End SampleRuns.
